(** * train_cifar.py: metrics, network shapes, run-directory naming and the
      training loop of the CIFAR-10 lab script

    A shallow embedding of [lab-5-transformers/lab5-code/train_cifar.py].

    Conventions of the embedding.
    - Python integers are [Z] (or [nat] for lengths and counters that only
      count up from zero); [%] is [Z.modulo], which like Python's takes the
      sign of the divisor; a zero divisor raises [ZeroDivisionError].
    - Floating-point values are idealised: a finite value is an exact
      rational kept in lowest terms, next to the IEEE special values
      [+inf], [-inf] and [nan] that numpy's division produces.  The counts
      handled by the metric functions are integers, for which float64
      arithmetic is exact below 2^53.
    - An exception is a value of [exn]; fallible pure code returns
      [result], stateful code runs in the state-and-exception monad [M]. *)

From Stdlib Require Import ZArith QArith Qreduction String List Lia DecimalString.
From stdpp Require Import base list sorting strings.

Open Scope Z_scope.

(* ================================================================== *)
(** ** Exceptions and results *)

Inductive exn : Type :=
  | AssertionError
  | ZeroDivisionError
  | IndexError
  | RuntimeError
  | ValueError.

Inductive result (A : Type) : Type :=
  | Ok (a : A)
  | Raise (e : exn).
Arguments Ok {A} a.
Arguments Raise {A} e.

Definition rbind {A B : Type} (r : result A) (k : A -> result B) : result B :=
  match r with
  | Ok a => k a
  | Raise e => Raise e
  end.

Notation "'let?' x := r 'in' k" := (rbind r (fun x => k))
  (at level 10, x name, r at level 100, k at level 200).

(* ================================================================== *)
(** ** Idealised floating point *)

Inductive float : Type :=
  | Fin (q : Q)
  | PInf
  | NInf
  | NaN.

Definition Qlt_bool (a b : Q) : bool := negb (Qle_bool b a).

Definition float_of_Z (z : Z) : float := Fin (inject_Z z).
Definition float_of_nat (n : nat) : float := float_of_Z (Z.of_nat n).

(** Addition of floats.  On finite values it is exact: the rounding of
    float64 is not modelled. *)
Definition float_add (x y : float) : float :=
  match x, y with
  | NaN, _ | _, NaN => NaN
  | Fin a, Fin b => Fin (Qred (a + b))
  | PInf, NInf | NInf, PInf => NaN
  | PInf, _ | _, PInf => PInf
  | NInf, _ | _, NInf => NInf
  end.

(** IEEE division as numpy performs it: no exception, [0/0 = nan] and
    [x/0 = ±inf]. *)
Definition np_true_divide (x y : float) : float :=
  match x, y with
  | NaN, _ | _, NaN => NaN
  | Fin a, Fin b =>
      if Qeq_bool b 0 then
        if Qeq_bool a 0 then NaN else if Qlt_bool a 0 then NInf else PInf
      else Fin (Qred (a / b))
  | Fin _, (PInf | NInf) => Fin 0
  | PInf, Fin b => if Qlt_bool b 0 then NInf else PInf
  | NInf, Fin b => if Qlt_bool b 0 then PInf else NInf
  | (PInf | NInf), (PInf | NInf) => NaN
  end.

(** Python's [float / int]: a zero divisor raises. *)
Definition py_truediv (x : float) (n : Z) : result float :=
  if n =? 0 then Raise ZeroDivisionError
  else Ok (np_true_divide x (float_of_Z n)).

(** Python's [a % b] on integers. *)
Definition py_mod (a b : Z) : result Z :=
  if b =? 0 then Raise ZeroDivisionError else Ok (a mod b).

(** [ndarray.sum()] of a boolean array: the number of [True] entries. *)
Definition np_sum_bool (bs : list bool) : nat :=
  sum_list ((fun b : bool => if b then 1%nat else 0%nat) <$> bs).

(** [ndarray.sum()] of a float array. *)
Definition np_sum (xs : list float) : float :=
  foldl float_add (Fin 0) xs.

(* ================================================================== *)
(** ** Metrics utilities *)

(** [compute_accuracy] (lines 359-368). *)
Definition compute_accuracy (labels preds : list Z) : result float :=
  if negb (length labels =? length preds)%nat then Raise AssertionError
  else
    py_truediv (float_of_nat (np_sum_bool (zip_with Z.eqb labels preds)))
               (Z.of_nat (length labels)).

(** Positions at which label and prediction agree, as the specification
    words it. *)
Definition equal_positions (labels preds : list Z) : list nat :=
  filter (fun i => labels !! i = preds !! i) (seq 0 (length labels)).

(** [np.unique]: the sorted distinct values of an array. *)
Definition np_unique (xs : list Z) : list Z :=
  merge_sort Z.le (remove_dups xs).

(** Indexing a 1-D array of length [n] with an integer: a negative index
    counts from the end, anything outside [-n, n) raises [IndexError]. *)
Definition np_index (n : nat) (i : Z) : result nat :=
  if (0 <=? i) && (i <? Z.of_nat n) then Ok (Z.to_nat i)
  else if (- Z.of_nat n <=? i) && (i <? 0) then Ok (Z.to_nat (i + Z.of_nat n))
  else Raise IndexError.

(** [a[i] += 1] on an array of counts. *)
Definition np_incr (a : list nat) (i : Z) : result (list nat) :=
  let? j := np_index (length a) i in Ok (alter S j a).

(** The loop of [compute_per_class_accuracy] (lines 377-380), over the
    pairs [(labels[i], preds[i])] in index order; the state is the pair of
    arrays [(classes, f_v)]. *)
Fixpoint per_class_loop (lps : list (Z * Z)) (classes f_v : list nat)
  : result (list nat * list nat) :=
  match lps with
  | [] => Ok (classes, f_v)
  | (l, p) :: rest =>
      let? f_v' := np_incr f_v l in
      let? classes' := (if l =? p then np_incr classes l else Ok classes) in
      per_class_loop rest classes' f_v'
  end.

(** [compute_per_class_accuracy] (lines 371-381). *)
Definition compute_per_class_accuracy (labels preds : list Z) : result (list float) :=
  if negb (length labels =? length preds)%nat then Raise AssertionError
  else
    let classes := replicate (length (np_unique labels)) 0%nat in
    let f_v := replicate (length classes) 0%nat in
    let? r := per_class_loop (zip labels preds) classes f_v in
    Ok (zip_with (fun c t => np_true_divide (float_of_nat c) (float_of_nat t))
                 r.1 r.2).

(** The specification's words: the examples of class [c], those of them
    that are predicted correctly, and the fraction of the two. *)
Definition class_total (c : Z) (labels : list Z) : nat :=
  length (filter (fun l => l = c) labels).

Definition class_correct (c : Z) (labels preds : list Z) : nat :=
  length (filter (fun lp : Z * Z => lp.1 = c /\ lp.2 = c) (zip labels preds)).

Definition fraction (num den : nat) : float :=
  Fin (Qred (Z.of_nat num # Pos.of_nat den)).

Definition class_fraction (labels preds : list Z) (c : nat) : float :=
  fraction (class_correct (Z.of_nat c) labels preds)
           (class_total (Z.of_nat c) labels).

(** [accuracy.sum() / len(accuracy)] (line 348): the unweighted mean of an
    array of per-class accuracies, with the exact sum and quotient of
    [float_add] and [np_true_divide] in place of the rounded ones. *)
Definition mean_accuracy (accuracy : list float) : float :=
  np_true_divide (np_sum accuracy) (float_of_nat (length accuracy)).

(* ================================================================== *)
(** ** The network, at the level of tensor shapes

    Tensor values are not modelled: a tensor is its shape, and each layer
    is the function from input shape to output shape that the library
    documents for it, failing where the library rejects the input. *)

Definition Shape : Type := list nat.

Record ImageShape : Type := {
  height : nat;
  width : nat;
  channels : nat
}.

(** [nn.Conv2d], stride 1 and dilation 1.  Its forward pass rejects an
    input whose channel count differs from [in_channels], and an input
    without channels even when [in_channels] is 0. *)
Record Conv2d : Type := {
  in_channels : nat;
  out_channels : nat;
  conv_kernel_size : nat * nat;
  conv_padding : nat * nat
}.

Record BatchNorm : Type := { num_features : nat }.

(** [nn.MaxPool2d], no padding, floor rounding. *)
Record MaxPool2d : Type := {
  pool_kernel_size : nat * nat;
  pool_stride : nat * nat
}.

Record Linear : Type := {
  in_features : nat;
  out_features : nat
}.

Record Dropout : Type := { dropout_p : Q }.

Definition conv_out (size pad kernel : nat) : result nat :=
  if (kernel <=? size + 2 * pad)%nat
  then Ok (size + 2 * pad - kernel + 1)%nat
  else Raise RuntimeError.

Definition Conv2d_forward (c : Conv2d) (x : Shape) : result Shape :=
  match x with
  | [n; ch; h; w] =>
      if negb (ch =? in_channels c)%nat || (ch =? 0)%nat then Raise RuntimeError
      else
        let? h' := conv_out h (conv_padding c).1 (conv_kernel_size c).1 in
        let? w' := conv_out w (conv_padding c).2 (conv_kernel_size c).2 in
        Ok [n; out_channels c; h'; w']
  | [ch; h; w] =>
      if negb (ch =? in_channels c)%nat || (ch =? 0)%nat then Raise RuntimeError
      else
        let? h' := conv_out h (conv_padding c).1 (conv_kernel_size c).1 in
        let? w' := conv_out w (conv_padding c).2 (conv_kernel_size c).2 in
        Ok [out_channels c; h'; w']
  | _ => Raise RuntimeError
  end.

(** [nn.BatchNorm2d]: the shape is kept; in training mode a batch with a
    single value per channel is rejected. *)
Definition BatchNorm2d_forward (b : BatchNorm) (training : bool) (x : Shape)
  : result Shape :=
  match x with
  | [n; ch; h; w] =>
      if negb (ch =? num_features b)%nat then Raise RuntimeError
      else if training && (n * (h * w) =? 1)%nat then Raise ValueError
      else Ok x
  | _ => Raise ValueError
  end.

(** [nn.BatchNorm1d], on [(N, C)] or [(N, C, L)]. *)
Definition BatchNorm1d_forward (b : BatchNorm) (training : bool) (x : Shape)
  : result Shape :=
  match x with
  | [n; ch] =>
      if negb (ch =? num_features b)%nat then Raise RuntimeError
      else if training && (n =? 1)%nat then Raise ValueError
      else Ok x
  | [n; ch; l] =>
      if negb (ch =? num_features b)%nat then Raise RuntimeError
      else if training && (n * l =? 1)%nat then Raise ValueError
      else Ok x
  | _ => Raise ValueError
  end.

Definition relu (x : Shape) : Shape := x.

Definition pool_out (size kernel stride : nat) : result nat :=
  if (size <? kernel)%nat || (stride =? 0)%nat then Raise RuntimeError
  else Ok ((size - kernel) / stride + 1)%nat.

Definition MaxPool2d_forward (p : MaxPool2d) (x : Shape) : result Shape :=
  match x with
  | [n; ch; h; w] =>
      let? h' := pool_out h (pool_kernel_size p).1 (pool_stride p).1 in
      let? w' := pool_out w (pool_kernel_size p).2 (pool_stride p).2 in
      Ok [n; ch; h'; w']
  | [ch; h; w] =>
      let? h' := pool_out h (pool_kernel_size p).1 (pool_stride p).1 in
      let? w' := pool_out w (pool_kernel_size p).2 (pool_stride p).2 in
      Ok [ch; h'; w']
  | _ => Raise RuntimeError
  end.

(** [torch.flatten(x, start_dim=1)]. *)
Definition flatten_from_1 (x : Shape) : result Shape :=
  match x with
  | n :: d :: rest => Ok [n; foldr Nat.mul 1%nat (d :: rest)]
  | _ => Raise IndexError
  end.

Definition Dropout_forward (d : Dropout) (x : Shape) : Shape := x.

(** [nn.Linear]: the last dimension must be [in_features]. *)
Fixpoint Linear_forward (l : Linear) (x : Shape) : result Shape :=
  match x with
  | [] => Raise RuntimeError
  | [d] => if (d =? in_features l)%nat then Ok [out_features l]
           else Raise RuntimeError
  | n :: rest => let? r := Linear_forward l rest in Ok (n :: r)
  end.

Record CNN : Type := {
  input_shape : ImageShape;
  class_count : nat;
  conv1 : Conv2d;
  batch1 : BatchNorm;
  pool1 : MaxPool2d;
  conv2 : Conv2d;
  batch2 : BatchNorm;
  pool2 : MaxPool2d;
  fc1 : Linear;
  batchFc : BatchNorm;
  fc2 : Linear;
  dropout : Dropout;
  training : bool
}.

(** [nn.Dropout(p)] rejects a probability outside [0, 1]. *)
Definition Dropout_init (p : Q) : result Dropout :=
  if Qle_bool 0 p && Qle_bool p 1 then Ok {| dropout_p := p |}
  else Raise ValueError.

(** [CNN.__init__] (lines 149-187).  A fresh module is in training mode. *)
Definition CNN_init (image_height image_width image_channels class_count : nat)
    (dropout : Q) : result CNN :=
  let input_shape :=
    {| height := image_height; width := image_width;
       channels := image_channels |} in
  let? drop := Dropout_init dropout in
  Ok {| input_shape := input_shape;
        class_count := class_count;
        conv1 := {| in_channels := input_shape.(channels); out_channels := 32;
                    conv_kernel_size := (5, 5); conv_padding := (2, 2) |}%nat;
        batch1 := {| num_features := 32 |};
        pool1 := {| pool_kernel_size := (2, 2); pool_stride := (2, 2) |}%nat;
        conv2 := {| in_channels := 32; out_channels := 64;
                    conv_kernel_size := (5, 5); conv_padding := (2, 2) |}%nat;
        batch2 := {| num_features := 64 |};
        pool2 := {| pool_kernel_size := (2, 2); pool_stride := (2, 2) |}%nat;
        fc1 := {| in_features := 4096; out_features := 1024 |};
        batchFc := {| num_features := 1024 |};
        fc2 := {| in_features := 1024; out_features := 10 |};
        dropout := drop;
        training := true |}.

(** [nn.Module.eval] and [nn.Module.train]. *)
Definition CNN_eval (m : CNN) : CNN :=
  {| input_shape := input_shape m; class_count := class_count m;
     conv1 := conv1 m; batch1 := batch1 m; pool1 := pool1 m;
     conv2 := conv2 m; batch2 := batch2 m; pool2 := pool2 m;
     fc1 := fc1 m; batchFc := batchFc m; fc2 := fc2 m;
     dropout := dropout m; training := false |}.

Definition CNN_train (m : CNN) : CNN :=
  {| input_shape := input_shape m; class_count := class_count m;
     conv1 := conv1 m; batch1 := batch1 m; pool1 := pool1 m;
     conv2 := conv2 m; batch2 := batch2 m; pool2 := pool2 m;
     fc1 := fc1 m; batchFc := batchFc m; fc2 := fc2 m;
     dropout := dropout m; training := true |}.

(** [CNN.forward] (lines 189-204). *)
Definition CNN_forward (m : CNN) (images : Shape) : result Shape :=
  let? x := Conv2d_forward (conv1 m) images in
  let? x := BatchNorm2d_forward (batch1 m) (training m) x in
  let x := relu x in
  let? x := MaxPool2d_forward (pool1 m) x in
  let? x := Conv2d_forward (conv2 m) x in
  let? x := BatchNorm2d_forward (batch2 m) (training m) x in
  let x := relu x in
  let? x := MaxPool2d_forward (pool2 m) x in
  let? x := flatten_from_1 x in
  let? x := Linear_forward (fc1 m) (Dropout_forward (dropout m) x) in
  let? x := BatchNorm1d_forward (batchFc m) (training m) x in
  let? x := Linear_forward (fc2 m) (Dropout_forward (dropout m) x) in
  Ok x.

(** *** The parameters of the network *)

(** A parameter tensor, as far as [count_parameters] looks at it. *)
Record TensorParameter : Type := {
  numel : Z;
  requires_grad : bool
}.

(** The parameters a layer registers, weight first and bias second; a
    fresh parameter requires a gradient.  Pooling and dropout layers have
    none, and the running statistics of batch normalisation are buffers. *)
Definition Conv2d_parameters (c : Conv2d) : list TensorParameter :=
  [ {| numel := Z.of_nat (out_channels c) * Z.of_nat (in_channels c)
                * Z.of_nat (conv_kernel_size c).1 * Z.of_nat (conv_kernel_size c).2;
       requires_grad := true |};
    {| numel := Z.of_nat (out_channels c); requires_grad := true |} ].

Definition BatchNorm_parameters (b : BatchNorm) : list TensorParameter :=
  [ {| numel := Z.of_nat (num_features b); requires_grad := true |};
    {| numel := Z.of_nat (num_features b); requires_grad := true |} ].

Definition Linear_parameters (l : Linear) : list TensorParameter :=
  [ {| numel := Z.of_nat (out_features l) * Z.of_nat (in_features l);
       requires_grad := true |};
    {| numel := Z.of_nat (out_features l); requires_grad := true |} ].

(** [model.parameters()], in the order in which [__init__] registers the
    layers. *)
Definition CNN_parameters (m : CNN) : list TensorParameter :=
  Conv2d_parameters (conv1 m) ++ BatchNorm_parameters (batch1 m)
  ++ Conv2d_parameters (conv2 m) ++ BatchNorm_parameters (batch2 m)
  ++ Linear_parameters (fc1 m) ++ BatchNorm_parameters (batchFc m)
  ++ Linear_parameters (fc2 m).

(** [count_parameters] (lines 417-418). *)
Definition count_parameters (parameters : list TensorParameter) : Z :=
  foldl Z.add 0 (numel <$> filter (fun p => requires_grad p = true) parameters).

(** *** The training images, at the level of shapes *)

(** The transforms that [main] composes (lines 89-97); [Pad] is always
    given [padding_mode='reflect']. *)
Inductive Transform : Type :=
  | RandomHorizontalFlip
  | ColorJitter (brightness : float)
  | Pad (padding : Z)
  | ToTensor.

(** [x > 0] on a float. *)
Definition float_pos (x : float) : bool :=
  match x with
  | Fin q => Qlt_bool 0 q
  | PInf => true
  | NInf | NaN => false
  end.

(** The list [augmentations] as [main] builds it (lines 89-96). *)
Definition main_augmentations (isHFlip : bool) (brightness : float)
    (reflectionPadding : Z) : list Transform :=
  let augmentations := [] in
  let augmentations :=
    if isHFlip then augmentations ++ [RandomHorizontalFlip] else augmentations in
  let augmentations :=
    if float_pos brightness then augmentations ++ [ColorJitter brightness]
    else augmentations in
  let augmentations :=
    if 0 <? reflectionPadding then augmentations ++ [Pad reflectionPadding]
    else augmentations in
  augmentations ++ [ToTensor].

(** What a transform does to the size of an image: [Pad] adds its padding
    on all four sides, the others keep the size. *)
Definition Transform_size (t : Transform) (img : ImageShape) : ImageShape :=
  match t with
  | Pad padding =>
      {| height := height img + 2 * Z.to_nat padding;
         width := width img + 2 * Z.to_nat padding;
         channels := channels img |}
  | _ => img
  end.

(** [transforms.Compose]. *)
Definition Compose_size (ts : list Transform) (img : ImageShape) : ImageShape :=
  foldl (fun img t => Transform_size t img) img ts.

(** A CIFAR-10 image. *)
Definition cifar10_image : ImageShape :=
  {| height := 32; width := 32; channels := 3 |}.

(** The shape of a batch of [n] training images as the training loader of
    [main] collates them: channels first. *)
Definition main_train_batch_shape (isHFlip : bool) (brightness : float)
    (reflectionPadding : Z) (n : nat) : Shape :=
  let img :=
    Compose_size (main_augmentations isHFlip brightness reflectionPadding)
      cifar10_image in
  [n; channels img; height img; width img].

(* ================================================================== *)
(** ** Run-directory naming *)

(** [str(i)] of a Python integer. *)
Definition str_Z (z : Z) : string := NilZero.string_of_int (Z.to_int z).
Definition str_nat (n : nat) : string := str_Z (Z.of_nat n).

Section RunDirectory.
(** What the script takes from [argparse] and [pathlib]: the numbers as
    [argparse] stored them with their [str()], paths with [/], [exists()]
    on the file system as it is during the call, and [str()]. *)
Variable Number : Type.
Variable str_number : Number -> string.
Variable Path : Type.
Variable joinpath : Path -> string -> Path.
Variable path_exists : Path -> bool.
Variable str_path : Path -> string.

Record Namespace : Type := {
  log_dir : Path;
  batch_size : Z;
  args_dropout : Number;
  learning_rate : Number;
  brightness : Number;
  isHFlip : bool;
  reflectionPadding : Z
}.

(** Lines 396-405. *)
Definition tb_log_dir_prefix (args : Namespace) (n_parameters : Z) : string :=
  "CNN_parameters=" +:+ str_Z n_parameters
  +:+ "_bn_bs=" +:+ str_Z (batch_size args)
  +:+ "_dropout=" +:+ str_number (args_dropout args)
  +:+ "_lr=" +:+ str_number (learning_rate args)
  +:+ "_momentum=0.9"
  +:+ "_brightness=" +:+ str_number (brightness args)
  +:+ (if isHFlip args then "_hflip" else EmptyString)
  +:+ (if 0 <? reflectionPadding args
       then "_reflect=" +:+ str_Z (reflectionPadding args) else EmptyString)
  +:+ "_run_".

(** The path probed for suffix [i]. *)
Definition candidate (args : Namespace) (n_parameters : Z) (i : nat) : Path :=
  joinpath (log_dir args) (tb_log_dir_prefix args n_parameters +:+ str_nat i).

(** The loop of lines 409-413, entered with counter [i] and with
    [remaining = 1000 - i] iterations left before the guard [i < 1000]
    fails.  It yields the final value of [tb_log_dir] and the paths on
    which [exists()] was called, in order. *)
Fixpoint probe (args : Namespace) (n_parameters : Z)
    (remaining i : nat) (tb_log_dir : Path) : Path * list Path :=
  match remaining with
  | O => (tb_log_dir, [])
  | S remaining' =>
      let tb_log_dir := candidate args n_parameters i in
      if negb (path_exists tb_log_dir) then (tb_log_dir, [tb_log_dir])
      else
        let r := probe args n_parameters remaining' (S i) tb_log_dir in
        (r.1, tb_log_dir :: r.2)
  end.

(** [get_summary_writer_log_dir] (lines 384-414). *)
Definition get_summary_writer_log_dir (args : Namespace) (n_parameters : Z)
  : string :=
  str_path (probe args n_parameters 1000 0 (candidate args n_parameters 0)).1.

Definition probed_paths (args : Namespace) (n_parameters : Z) : list Path :=
  (probe args n_parameters 1000 0 (candidate args n_parameters 0)).2.
End RunDirectory.

Arguments log_dir {Number Path} _.
Arguments batch_size {Number Path} _.
Arguments args_dropout {Number Path} _.
Arguments learning_rate {Number Path} _.
Arguments brightness {Number Path} _.
Arguments isHFlip {Number Path} _.
Arguments reflectionPadding {Number Path} _.
Arguments tb_log_dir_prefix {Number} str_number {Path} args n_parameters.
Arguments candidate {Number} str_number {Path} joinpath args n_parameters i.
Arguments probe {Number} str_number {Path} joinpath path_exists
  args n_parameters remaining i tb_log_dir.
Arguments get_summary_writer_log_dir {Number} str_number {Path}
  joinpath path_exists str_path args n_parameters.
Arguments probed_paths {Number} str_number {Path} joinpath path_exists
  args n_parameters.

(** A concrete reading of the interface: numbers carried with their
    rendering, paths as strings joined with a slash, and a directory
    listing. *)
Definition string_joinpath (dir name : string) : string := dir +:+ "/" +:+ name.

Definition listed (existing : list string) (p : string) : bool :=
  bool_decide (p ∈ existing).

Definition default_args : Namespace string string :=
  {| log_dir := "logs"; batch_size := 128; args_dropout := "0";
     learning_rate := "0.01"; brightness := "0"; isHFlip := false;
     reflectionPadding := 0 |}.

Definition default_run (i : nat) : string :=
  "logs/CNN_parameters=4261514_bn_bs=128_dropout=0_lr=0.01_momentum=0.9_brightness=0_run_"
  +:+ str_nat i.

(* ================================================================== *)
(** ** The trainer *)

(** What the trainer does to its collaborators, in the order it does it:
    mode switches of the model, observations handed to the summary writer,
    and printed lines.  [CallValidate epoch] is a ghost event that marks
    the call [self.validate()] on line 285 with the epoch it is made in. *)
Inductive Event : Type :=
  | ModelTrain
  | ModelEval
  | AddScalar (tag : string) (scalar_value : float) (global_step : Z)
  | AddScalars (main_tag key : string) (scalar_value : float) (global_step : Z)
  | PrintMetrics (epoch epoch_step : Z) (loader_len : nat)
      (loss accuracy data_load_time step_time : float)
  | PrintValidation (average_loss : float) (per_class_accuracy : list float)
  | CallValidate (epoch : Z).

(** The epochs of the calls of [validate], in order. *)
Definition validate_calls (evs : list Event) : list Z :=
  omap (fun ev => match ev with CallValidate e => Some e | _ => None end) evs.


(** Events that [validate] itself produces. *)
Definition validation_event (ev : Event) : Prop :=
  match ev with
  | ModelEval | AddScalars _ "test" _ _ | PrintValidation _ _ => True
  | _ => False
  end.

(** The step an observation is filed under, if it is filed under one. *)
Definition event_step (ev : Event) : option Z :=
  match ev with
  | AddScalar _ _ s | AddScalars _ _ _ s => Some s
  | _ => None
  end.

(** [range(a, b)]. *)
Definition py_range (a b : Z) : list Z :=
  (fun i : nat => a + Z.of_nat i) <$> seq 0 (Z.to_nat (b - a)).

Section Trainer.
(** A batch as a loader yields it, with its labels. *)
Variable Batch : Type.
Variable batch_labels : Batch -> list Z.
(** The parameters and buffers of the model together with the state of the
    optimizer. *)
Variable Params : Type.
(** [logits.argmax(-1)] for the logits of a forward pass, given the mode. *)
Variable predict : Params -> bool -> Batch -> list Z.
(** [criterion(logits, labels).item()]. *)
Variable criterion : Params -> bool -> Batch -> float.
(** What a training forward pass, [loss.backward()], [optimizer.step()] and
    [optimizer.zero_grad()] leave behind. *)
Variable optimise : Params -> Batch -> Params.
(** The two intervals measured with [time.time()] around a step. *)
Variable data_load_time : Z -> float.
Variable step_time : Z -> float.

(** A restartable data source: [len(loader)] and the batches of each pass
    (a shuffling loader yields them in another order on every pass). *)
Record DataLoader : Type := {
  dl_len : nat;
  dl_batches : nat -> list Batch;
  dl_passes : nat
}.

Record Model : Type := {
  params : Params;
  training_flag : bool
}.

Record Trainer : Type := {
  model : Model;
  train_loader : DataLoader;
  val_loader : DataLoader;
  step : Z
}.

(** [Trainer.__init__] (lines 215-232). *)
Definition Trainer_init (model : Model) (train_loader val_loader : DataLoader)
  : Trainer :=
  {| model := model; train_loader := train_loader; val_loader := val_loader;
     step := 0 |}.

(** *** State, events and exceptions *)

Inductive Outcome (A : Type) : Type :=
  | Return (a : A) (st : Trainer) (evs : list Event)
  | Throw (e : exn) (st : Trainer) (evs : list Event).
Arguments Return {A} a st evs.
Arguments Throw {A} e st evs.

Definition M (A : Type) : Type := Trainer -> Outcome A.

Definition outcome_state {A : Type} (o : Outcome A) : Trainer :=
  match o with Return _ st _ | Throw _ st _ => st end.

Definition outcome_events {A : Type} (o : Outcome A) : list Event :=
  match o with Return _ _ evs | Throw _ _ evs => evs end.

Definition ret {A : Type} (a : A) : M A := fun st => Return a st [].

Definition bind {A B : Type} (m : M A) (k : A -> M B) : M B :=
  fun st =>
    match m st with
    | Return a st1 evs1 =>
        match k a st1 with
        | Return b st2 evs2 => Return b st2 (evs1 ++ evs2)
        | Throw e st2 evs2 => Throw e st2 (evs1 ++ evs2)
        end
    | Throw e st1 evs1 => Throw e st1 evs1
    end.

Definition lift {A : Type} (r : result A) : M A :=
  fun st => match r with Ok a => Return a st [] | Raise e => Throw e st [] end.

Definition get : M Trainer := fun st => Return st st [].
Definition put (st : Trainer) : M unit := fun _ => Return tt st [].

(** A call on a collaborator, recorded as an event.  The collaborators
    (the model, the summary writer, [print]) are taken to return: the
    exceptions of a run are those of the script's own arithmetic and
    assertions. *)
Definition emit (ev : Event) : M unit := fun st => Return tt st [ev].

Fixpoint for_each {X : Type} (xs : list X) (body : X -> M unit) : M unit :=
  match xs with
  | [] => ret tt
  | x :: xs' => bind (body x) (fun _ => for_each xs' body)
  end.

Definition when (b : bool) (m : M unit) : M unit := if b then m else ret tt.

Notation "'let*' x := m 'in' k" := (bind m (fun x => k))
  (at level 10, x name, m at level 100, k at level 200).
Notation "'run' m 'in' k" := (bind m (fun _ => k))
  (at level 10, m at level 100, k at level 200).

(** *** Collaborators *)

(** [self.model.train()] and [self.model.eval()]. *)
Definition model_set_training (flag : bool) : M unit :=
  let* st := get in
  run put {| model := {| params := params (model st); training_flag := flag |};
             train_loader := train_loader st; val_loader := val_loader st;
             step := step st |} in
  emit (if flag then ModelTrain else ModelEval).

Definition model_train : M unit := model_set_training true.
Definition model_eval : M unit := model_set_training false.

Definition next_pass (l : DataLoader) : DataLoader :=
  {| dl_len := dl_len l; dl_batches := dl_batches l;
     dl_passes := S (dl_passes l) |}.

(** One pass over [self.train_loader], resp. [self.val_loader]. *)
Definition iter_train_loader : M (list Batch) :=
  let* st := get in
  run put {| model := model st; train_loader := next_pass (train_loader st);
             val_loader := val_loader st; step := step st |} in
  ret (dl_batches (train_loader st) (dl_passes (train_loader st))).

Definition iter_val_loader : M (list Batch) :=
  let* st := get in
  run put {| model := model st; train_loader := train_loader st;
             val_loader := next_pass (val_loader st); step := step st |} in
  ret (dl_batches (val_loader st) (dl_passes (val_loader st))).

(** Forward pass, loss, backward pass and optimizer step on one batch
    (lines 253-270): the predictions and the loss are those of the forward
    pass, made before the update. *)
Definition optimise_on (b : Batch) : M (list Z * float) :=
  let* st := get in
  let preds := predict (params (model st)) (training_flag (model st)) b in
  let loss := criterion (params (model st)) (training_flag (model st)) b in
  run put {| model := {| params := optimise (params (model st)) b;
                         training_flag := training_flag (model st) |};
             train_loader := train_loader st; val_loader := val_loader st;
             step := step st |} in
  ret (preds, loss).

(** [self.step += 1] (line 280). *)
Definition incr_step : M unit :=
  let* st := get in
  put {| model := model st; train_loader := train_loader st;
         val_loader := val_loader st; step := step st + 1 |}.

(** *** The trainer's methods *)

(** [Trainer.print_metrics] (lines 290-300). *)
Definition print_metrics (epoch : Z) (accuracy loss dlt stt : float) : M unit :=
  let* st := get in
  let* epoch_step :=
    lift (py_mod (step st) (Z.of_nat (dl_len (train_loader st)))) in
  emit (PrintMetrics epoch epoch_step (dl_len (train_loader st))
          loss accuracy dlt stt).

(** [Trainer.log_metrics] (lines 302-319). *)
Definition log_metrics (epoch : Z) (accuracy loss dlt stt : float) : M unit :=
  let* st := get in
  run emit (AddScalar "epoch" (float_of_Z epoch) (step st)) in
  run emit (AddScalars "accuracy" "train" accuracy (step st)) in
  run emit (AddScalars "loss" "train" loss (step st)) in
  run emit (AddScalar "time/data" dlt (step st)) in
  emit (AddScalar "time/data" stt (step st)).

(** The accumulation of lines 328-336 over the validation batches: the
    predictions, the labels and the summed loss. *)
Definition validate_accumulate (p : Params) (flag : bool) (batches : list Batch)
  : list Z * list Z * float :=
  foldl (fun acc b =>
           (acc.1.1 ++ predict p flag b,
            acc.1.2 ++ batch_labels b,
            float_add acc.2 (criterion p flag b)))
        ([], [], Fin 0) batches.

(** [Trainer.validate] (lines 321-356). *)
Definition validate : M unit :=
  run model_eval in
  let* batches := iter_val_loader in
  let* st := get in
  let results :=
    validate_accumulate (params (model st)) (training_flag (model st)) batches in
  let total_loss := results.2 in
  let* accuracy :=
    lift (compute_per_class_accuracy results.1.2 results.1.1) in
  let* average_loss :=
    lift (py_truediv total_loss (Z.of_nat (dl_len (val_loader st)))) in
  run emit (AddScalars "accuracy" "test" (mean_accuracy accuracy) (step st)) in
  run emit (AddScalars "loss" "test" average_loss (step st)) in
  emit (PrintValidation average_loss accuracy).

(** The body of the inner loop of [Trainer.train] (lines 247-281). *)
Definition train_batch (epoch print_frequency log_frequency : Z) (b : Batch)
  : M unit :=
  let* r := optimise_on b in
  let preds := r.1 in
  let loss := r.2 in
  let* accuracy := lift (compute_accuracy (batch_labels b) preds) in
  let* st := get in
  let dlt := data_load_time (step st) in
  let stt := step_time (step st) in
  let* r_log := lift (py_mod (step st + 1) log_frequency) in
  run when (r_log =? 0) (log_metrics epoch accuracy loss dlt stt) in
  let* r_print := lift (py_mod (step st + 1) print_frequency) in
  run when (r_print =? 0) (print_metrics epoch accuracy loss dlt stt) in
  incr_step.

(** The body of the outer loop of [Trainer.train] (lines 244-288). *)
Definition train_epoch (val_frequency print_frequency log_frequency epoch : Z)
  : M unit :=
  run model_train in
  let* batches := iter_train_loader in
  run for_each batches (train_batch epoch print_frequency log_frequency) in
  let* st := get in
  run emit (AddScalar "epoch" (float_of_Z epoch) (step st)) in
  let* r := lift (py_mod (epoch + 1) val_frequency) in
  when (r =? 0)
    (run emit (CallValidate epoch) in
     run validate in
     model_train).

(** [Trainer.train] (lines 234-288). *)
Definition train (epochs val_frequency print_frequency log_frequency
                  start_epoch : Z) : M unit :=
  run model_train in
  for_each (py_range start_epoch epochs)
           (train_epoch val_frequency print_frequency log_frequency).

(** Data on which neither a training step nor a validation raises: the
    loaders report a non-zero length; every training batch is non-empty
    and is given one prediction per label; and the labels and predictions
    accumulated by a validation pass are accepted by
    [compute_per_class_accuracy]. *)
Definition train_data_ok (l : DataLoader) : Prop :=
  dl_len l <> 0%nat
  /\ forall n b, b ∈ dl_batches l n ->
       batch_labels b <> []
       /\ forall p flag, length (predict p flag b) = length (batch_labels b).

Definition val_data_ok (l : DataLoader) : Prop :=
  dl_len l <> 0%nat
  /\ forall n p flag,
       exists accuracy,
         compute_per_class_accuracy
           (validate_accumulate p flag (dl_batches l n)).1.2
           (validate_accumulate p flag (dl_batches l n)).1.1 = Ok accuracy.
End Trainer.

Arguments dl_len {Batch} _.
Arguments dl_batches {Batch} _ _.
Arguments dl_passes {Batch} _.
Arguments next_pass {Batch} l.
Arguments params {Params} _.
Arguments training_flag {Params} _.
Arguments model {Batch Params} _.
Arguments train_loader {Batch Params} _.
Arguments val_loader {Batch Params} _.
Arguments step {Batch Params} _.
Arguments Trainer_init {Batch Params} model train_loader val_loader.
Arguments Return {Batch Params A} a st evs.
Arguments Throw {Batch Params A} e st evs.
Arguments outcome_state {Batch Params A} o.
Arguments outcome_events {Batch Params A} o.
Arguments ret {Batch Params A} a _.
Arguments bind {Batch Params A B} m k _.
Arguments lift {Batch Params A} r _.
Arguments get {Batch Params} _.
Arguments put {Batch Params} st _.
Arguments emit {Batch Params} ev _.
Arguments for_each {Batch Params X} xs body _.
Arguments when {Batch Params} b m _.
Arguments model_set_training {Batch Params} flag _.
Arguments model_train {Batch Params} _.
Arguments model_eval {Batch Params} _.
Arguments iter_train_loader {Batch Params} _.
Arguments iter_val_loader {Batch Params} _.
Arguments incr_step {Batch Params} _.
Arguments print_metrics {Batch Params} epoch accuracy loss dlt stt _.
Arguments log_metrics {Batch Params} epoch accuracy loss dlt stt _.

(** The number of batches yielded by the next [n] passes over a loader. *)
Definition total_batches {Batch : Type} (l : DataLoader Batch) (n : nat) : nat :=
  sum_list ((fun i => length (dl_batches l (dl_passes l + i))) <$> seq 0 n).

(** A small concrete training set-up: a batch is its labels paired with
    the predictions a fixed model makes for it. *)
Definition demo_train_loader : DataLoader (list Z * list Z) :=
  {| dl_len := 2;
     dl_batches := fun _ => [([0; 1], [0; 1]); ([1; 0], [1; 1])];
     dl_passes := 0 |}.

Definition demo_val_loader : DataLoader (list Z * list Z) :=
  {| dl_len := 1;
     dl_batches := fun _ => [([0; 0; 0; 1], [0; 0; 0; 0])];
     dl_passes := 0 |}.

Definition demo_trainer : Trainer (list Z * list Z) unit :=
  Trainer_init {| params := tt; training_flag := true |}
    demo_train_loader demo_val_loader.

Definition demo_validate : M (list Z * list Z) unit unit :=
  validate (list Z * list Z) fst unit (fun _ _ b => b.2) (fun _ _ _ => Fin 0).

Definition demo_train_batch (epoch print_frequency log_frequency : Z)
    (b : list Z * list Z) : M (list Z * list Z) unit unit :=
  train_batch (list Z * list Z) fst unit (fun _ _ b => b.2) (fun _ _ _ => Fin 0)
    (fun p _ => p) (fun _ => Fin 0) (fun _ => Fin 0)
    epoch print_frequency log_frequency b.

Definition demo_train_epoch (val_frequency print_frequency log_frequency epoch : Z)
  : M (list Z * list Z) unit unit :=
  train_epoch (list Z * list Z) fst unit (fun _ _ b => b.2) (fun _ _ _ => Fin 0)
    (fun p _ => p) (fun _ => Fin 0) (fun _ => Fin 0)
    val_frequency print_frequency log_frequency epoch.

Definition demo_train (epochs val_frequency print_frequency log_frequency
                       start_epoch : Z) : M (list Z * list Z) unit unit :=
  train (list Z * list Z) fst unit (fun _ _ b => b.2) (fun _ _ _ => Fin 0)
    (fun p _ => p) (fun _ => Fin 0) (fun _ => Fin 0)
    epochs val_frequency print_frequency log_frequency start_epoch.

(** After every call of [validate], nothing but the events of that
    validation happens before the model is switched back to training
    mode. *)
Definition validations_restored (evs : list Event) : Prop :=
  forall pre e post,
    evs = pre ++ CallValidate e :: post ->
    exists vevs rest,
      post = vevs ++ ModelTrain :: rest /\ Forall validation_event vevs.

(** The steps under which a training accuracy was handed to the summary
    writer, in order. *)
Definition train_accuracy_steps (evs : list Event) : list Z :=
  omap (fun ev => match ev with
                  | AddScalars "accuracy" "train" _ s => Some s
                  | _ => None
                  end) evs.

(** A computation that, returning or raising, leaves the step counter at
    least where it found it. *)
Definition step_nondecreasing {Batch Params A : Type} (m : M Batch Params A)
  : Prop :=
  forall st, step st <= step (outcome_state (m st)).

(* ================================================================== *)
(** * Properties of the metrics utilities *)

Lemma np_sum_bool_le (bs : list bool) : (np_sum_bool bs <= length bs)%nat.
Proof.
  unfold np_sum_bool. induction bs as [|[] bs IH]; cbn in *; lia.
Qed.

Lemma np_sum_bool_all (bs : list bool) :
  np_sum_bool bs = length bs <-> Forall (fun b => b = true) bs.
Proof.
  induction bs as [|b bs IH].
  - split; [constructor | reflexivity].
  - pose proof (np_sum_bool_le bs) as Hle.
    rewrite Forall_cons. unfold np_sum_bool in *. destruct b; cbn in *.
    + rewrite <- IH. split; [intros; split; [done | lia] | intros [_ ?]; lia].
    + split; [lia | intros [? _]; done].
Qed.

Lemma np_sum_bool_none (bs : list bool) :
  np_sum_bool bs = 0%nat <-> Forall (fun b => b = false) bs.
Proof.
  induction bs as [|b bs IH].
  - split; [constructor | reflexivity].
  - rewrite Forall_cons. unfold np_sum_bool in *. destruct b; cbn in *.
    + split; [lia | intros [? _]; done].
    + rewrite <- IH. split; [intros; split; [done | lia] | intros [_ ?]; lia].
Qed.

Lemma length_filter_seq_S (P : nat -> Prop) `{!forall i, Decision (P i)} (a n : nat) :
  length (filter P (seq (S a) n)) = length (filter (fun i => P (S i)) (seq a n)).
Proof.
  revert a. induction n as [|n IH]; intros a; [reflexivity|].
  cbn [seq]. rewrite !filter_cons. specialize (IH (S a)).
  destruct (decide (P (S a))); cbn [length]; lia.
Qed.

Lemma np_sum_bool_equal_positions (labels preds : list Z) :
  length labels = length preds ->
  np_sum_bool (zip_with Z.eqb labels preds) = length (equal_positions labels preds).
Proof.
  revert preds. induction labels as [|l labels IH]; intros [|p preds] Hlen;
    try done.
  injection Hlen as Hlen. specialize (IH preds Hlen).
  unfold equal_positions in *. cbn [length seq zip_with].
  change (np_sum_bool ((l =? p) :: zip_with Z.eqb labels preds))
    with ((if (l =? p)%Z then 1 else 0) + np_sum_bool (zip_with Z.eqb labels preds))%nat.
  rewrite IH, filter_cons.
  pose proof (length_filter_seq_S
    (fun i => (l :: labels) !! i = (p :: preds) !! i) 0 (length labels)) as HS.
  cbn [lookup list_lookup] in *.
  destruct (Z.eqb_spec l p) as [->|Hne].
  - rewrite decide_True by done. cbn [length]. rewrite HS. reflexivity.
  - rewrite decide_False by congruence. rewrite HS. reflexivity.
Qed.

Lemma zip_eqb_all (labels preds : list Z) :
  Forall (fun b => b = true) (zip_with Z.eqb labels preds) <->
  forall i l p, labels !! i = Some l -> preds !! i = Some p -> l = p.
Proof.
  rewrite Forall_lookup. split.
  - intros H i l p Hl Hp. apply Z.eqb_eq, (H i).
    apply lookup_zip_with_Some. eauto.
  - intros H i b [l [p (-> & Hl & Hp)]]%lookup_zip_with_Some.
    apply Z.eqb_eq. eauto.
Qed.

Lemma zip_eqb_none (labels preds : list Z) :
  Forall (fun b => b = false) (zip_with Z.eqb labels preds) <->
  forall i l p, labels !! i = Some l -> preds !! i = Some p -> l <> p.
Proof.
  rewrite Forall_lookup. split.
  - intros H i l p Hl Hp. apply Z.eqb_neq, (H i).
    apply lookup_zip_with_Some. eauto.
  - intros H i b [l [p (-> & Hl & Hp)]]%lookup_zip_with_Some.
    apply Z.eqb_neq. eauto.
Qed.

(** Dividing a count by a positive count gives the fraction in lowest
    terms. *)
Lemma np_true_divide_counts (c n : nat) :
  (0 < n)%nat ->
  np_true_divide (float_of_nat c) (float_of_nat n) = fraction c n.
Proof.
  intros Hn. unfold np_true_divide, float_of_nat, float_of_Z, fraction.
  destruct (Qeq_bool (inject_Z (Z.of_nat n)) 0) eqn:Hz.
  - apply Qeq_bool_eq in Hz. unfold Qeq in Hz. cbn in Hz. lia.
  - f_equal. apply Qred_complete. rewrite Qmake_Qdiv.
    replace (Z.pos (Pos.of_nat n)) with (Z.of_nat n); [reflexivity|].
    destruct n; [lia|]. rewrite <- Pos.of_nat_succ. lia.
Qed.

Lemma fraction_range (c n : nat) (q : Q) :
  (0 < n)%nat -> (c <= n)%nat -> fraction c n = Fin q -> (0 <= q <= 1)%Q.
Proof.
  intros Hn Hc [= <-].
  assert (Z.pos (Pos.of_nat n) = Z.of_nat n) as Hp.
  { destruct n; [lia|]. rewrite <- Pos.of_nat_succ. lia. }
  rewrite !Qred_correct. unfold Qle. cbn. rewrite Hp. lia.
Qed.

Lemma fraction_one (c n : nat) :
  (0 < n)%nat -> fraction c n = Fin 1 <-> c = n.
Proof.
  intros Hn.
  assert (Z.pos (Pos.of_nat n) = Z.of_nat n) as Hp.
  { destruct n; [lia|]. rewrite <- Pos.of_nat_succ. lia. }
  unfold fraction. split.
  - intros [= H]. change 1%Q with (Qred 1) in H. apply Qred_eq_iff in H.
    unfold Qeq in H. cbn in H. lia.
  - intros ->. f_equal. change 1%Q with (Qred 1). apply Qred_complete.
    unfold Qeq. cbn. lia.
Qed.

Lemma fraction_zero (c n : nat) :
  fraction c n = Fin 0 <-> c = 0%nat.
Proof.
  unfold fraction. split.
  - intros [= H]. change 0%Q with (Qred 0) in H. apply Qred_eq_iff in H.
    unfold Qeq in H. cbn in H. lia.
  - intros ->. reflexivity.
Qed.

Lemma compute_accuracy_value (labels preds : list Z) :
  length labels = length preds -> labels <> [] ->
  compute_accuracy labels preds =
    Ok (fraction (length (equal_positions labels preds)) (length labels)).
Proof.
  intros Hlen Hne. unfold compute_accuracy, py_truediv.
  rewrite Hlen, Nat.eqb_refl. cbn [negb].
  assert (0 < length preds)%nat as Hpos.
  { rewrite <- Hlen. destruct labels; [done | cbn; lia]. }
  destruct (Z.eqb_spec (Z.of_nat (length preds)) 0) as [?|_]; [lia|].
  rewrite np_sum_bool_equal_positions by done.
  change (float_of_Z (Z.of_nat (length preds))) with (float_of_nat (length preds)).
  rewrite np_true_divide_counts by done. reflexivity.
Qed.

(** C2 (amended): for every pair of non-empty label/prediction sequences of
    equal length, [compute_accuracy] returns the fraction of positions at
    which label and prediction are equal; the value lies in [0,1], is 1
    exactly when all pairs match and 0 exactly when no pair matches. *)
Theorem compute_accuracy_fraction (labels preds : list Z) :
  length labels = length preds -> labels <> [] ->
  exists q : Q,
    compute_accuracy labels preds = Ok (Fin q)
    /\ Fin q = fraction (length (equal_positions labels preds)) (length labels)
    /\ (0 <= q <= 1)%Q
    /\ (q = 1%Q <->
        forall i l p, labels !! i = Some l -> preds !! i = Some p -> l = p)
    /\ (q = 0%Q <->
        forall i l p, labels !! i = Some l -> preds !! i = Some p -> l <> p).
Proof.
  intros Hlen Hne.
  assert (0 < length labels)%nat as Hpos by (destruct labels; [done | cbn; lia]).
  pose proof (np_sum_bool_equal_positions labels preds Hlen) as Hc.
  pose proof (np_sum_bool_le (zip_with Z.eqb labels preds)) as Hle.
  rewrite length_zip_with_l_eq in Hle by done.
  set (c := length (equal_positions labels preds)) in *.
  eexists. split; [apply compute_accuracy_value; done|].
  split; [reflexivity|]. split; [|split].
  - apply (fraction_range c (length labels)); [done | lia | reflexivity].
  - rewrite <- zip_eqb_all, <- np_sum_bool_all, Hc.
    rewrite length_zip_with_l_eq by done.
    rewrite <- (fraction_one c (length labels)) by done.
    unfold fraction. subst c. split; [congruence | intros [= H]; exact H].
  - rewrite <- zip_eqb_none, <- np_sum_bool_none, Hc.
    rewrite <- (fraction_zero c (length labels)).
    unfold fraction. subst c. split; [congruence | intros [= H]; exact H].
Qed.

Lemma compute_accuracy_fraction_witness :
  exists q : Q,
    compute_accuracy [1; 2; 3; 3] [1; 2; 0; 0] = Ok (Fin q)
    /\ Fin q = fraction (length (equal_positions [1; 2; 3; 3] [1; 2; 0; 0])) 4
    /\ (0 <= q <= 1)%Q
    /\ (q = 1%Q <->
        forall i l p, [1; 2; 3; 3] !! i = Some l ->
                      [1; 2; 0; 0] !! i = Some p -> l = p)
    /\ (q = 0%Q <->
        forall i l p, [1; 2; 3; 3] !! i = Some l ->
                      [1; 2; 0; 0] !! i = Some p -> l <> p).
Proof.
  apply (compute_accuracy_fraction [1; 2; 3; 3] [1; 2; 0; 0]);
    [reflexivity | discriminate].
Defined.

(** C2, as stated, fails on the empty pair: the two sequences have equal
    length, yet no value is returned. *)
Lemma compute_accuracy_empty_no_value :
  length (@nil Z) = length (@nil Z)
  /\ ~ exists v : float, compute_accuracy [] [] = Ok v.
Proof.
  split; [reflexivity|]. intros [v Hv]. discriminate Hv.
Qed.

(** C7: when the lengths of the two sequences differ, [compute_accuracy]
    fails its precondition with [AssertionError]; no value is returned and
    nothing is truncated to the shorter length. *)
Theorem compute_accuracy_length_mismatch (labels preds : list Z) :
  length labels <> length preds ->
  compute_accuracy labels preds = Raise AssertionError.
Proof.
  intros Hne. unfold compute_accuracy.
  destruct (Nat.eqb_spec (length labels) (length preds)); [done | reflexivity].
Qed.

Lemma compute_accuracy_length_mismatch_witness :
  compute_accuracy [0; 1; 1] [0; 1] = Raise AssertionError.
Proof.
  apply (compute_accuracy_length_mismatch [0; 1; 1] [0; 1]). cbn. lia.
Defined.

(** C10: on the empty pair of sequences, which passes the length
    assertion, [compute_accuracy] fails with [ZeroDivisionError]. *)
Theorem compute_accuracy_empty_zero_division :
  compute_accuracy [] [] = Raise ZeroDivisionError.
Proof.
  unfold compute_accuracy. cbn [length Nat.eqb negb].
  unfold py_truediv. reflexivity.
Qed.

(** *** Per-class accuracy *)

Lemma np_index_in_range (n : nat) (i : Z) :
  0 <= i < Z.of_nat n -> np_index n i = Ok (Z.to_nat i).
Proof.
  intros H. unfold np_index.
  destruct (Z.leb_spec 0 i), (Z.ltb_spec i (Z.of_nat n)); try lia. reflexivity.
Qed.

Lemma np_index_out_of_range (n : nat) (i : Z) :
  ~ (- Z.of_nat n <= i < Z.of_nat n) -> np_index n i = Raise IndexError.
Proof.
  intros H. unfold np_index.
  destruct (Z.leb_spec 0 i), (Z.ltb_spec i (Z.of_nat n)),
    (Z.leb_spec (- Z.of_nat n) i), (Z.ltb_spec i 0); cbn; try lia; reflexivity.
Qed.

Lemma np_index_bound (n : nat) (i : Z) (j : nat) :
  np_index n i = Ok j -> - Z.of_nat n <= i < Z.of_nat n.
Proof.
  unfold np_index.
  destruct (Z.leb_spec 0 i), (Z.ltb_spec i (Z.of_nat n)),
    (Z.leb_spec (- Z.of_nat n) i), (Z.ltb_spec i 0); cbn; try discriminate; lia.
Qed.

Lemma np_incr_length (a a' : list nat) (i : Z) :
  np_incr a i = Ok a' -> length a' = length a.
Proof.
  unfold np_incr. destruct (np_index (length a) i); cbn; [|discriminate].
  intros [= <-]. apply length_alter.
Qed.

Lemma class_total_cons (c l : Z) (labels : list Z) :
  class_total c (l :: labels) =
  ((if decide (l = c) then 1 else 0) + class_total c labels)%nat.
Proof.
  unfold class_total. rewrite filter_cons. destruct (decide (l = c)); reflexivity.
Qed.

Lemma class_correct_cons (c l p : Z) (labels preds : list Z) :
  class_correct c (l :: labels) (p :: preds) =
  ((if decide (l = c /\ p = c) then 1 else 0) + class_correct c labels preds)%nat.
Proof.
  unfold class_correct. cbn [zip zip_with]. rewrite filter_cons. cbn [fst snd].
  destruct (decide (l = c /\ p = c)); reflexivity.
Qed.

Lemma class_correct_le_total (c : Z) (labels preds : list Z) :
  (class_correct c labels preds <= class_total c labels)%nat.
Proof.
  revert preds. induction labels as [|l labels IH]; intros [|p preds];
    try (unfold class_correct, class_total; cbn; lia).
  rewrite class_total_cons, class_correct_cons. specialize (IH preds).
  destruct (decide (l = c /\ p = c)) as [[? ?]|?], (decide (l = c)); lia.
Qed.

Lemma class_total_pos (c : Z) (labels : list Z) :
  c ∈ labels <-> (0 < class_total c labels)%nat.
Proof.
  induction labels as [|l labels IH].
  - split; [intros H; inversion H | unfold class_total; cbn; lia].
  - rewrite class_total_cons, elem_of_cons, IH.
    destruct (decide (l = c)); split; try lia; intuition congruence.
Qed.

(** The loop invariant, for labels that index the arrays directly: each
    array cell grows by the count of its class among the pairs scanned. *)
Lemma per_class_loop_counts (labels preds : list Z) (classes f_v : list nat) :
  length labels = length preds ->
  length classes = length f_v ->
  (forall l, l ∈ labels -> 0 <= l < Z.of_nat (length f_v)) ->
  per_class_loop (zip labels preds) classes f_v =
    Ok (imap (fun j c => (c + class_correct (Z.of_nat j) labels preds)%nat) classes,
        imap (fun j t => (t + class_total (Z.of_nat j) labels)%nat) f_v).
Proof.
  revert preds classes f_v.
  induction labels as [|l labels IH]; intros [|p preds] classes f_v Hlen Hk Hin;
    try done.
  - cbn. f_equal. f_equal; apply list_eq; intros j;
      rewrite list_lookup_imap; destruct (_ !! j); cbn; f_equal;
      unfold class_correct, class_total; cbn; lia.
  - injection Hlen as Hlen.
    assert (0 <= l < Z.of_nat (length f_v)) as Hl by (apply Hin; left).
    cbn [zip zip_with per_class_loop]. unfold np_incr.
    rewrite (np_index_in_range (length f_v) l Hl). cbn [rbind].
    assert ((if l =? p
             then let? j := np_index (length classes) l in Ok (alter S j classes)
             else Ok classes)
            = Ok (if l =? p then alter S (Z.to_nat l) classes else classes)) as ->.
    { destruct (l =? p); [|reflexivity].
      rewrite Hk, (np_index_in_range (length f_v) l Hl). reflexivity. }
    cbn [rbind]. change (zip_with pair labels preds) with (zip labels preds).
    rewrite IH; cycle 1.
    + done.
    + destruct (l =? p); rewrite ?length_alter; done.
    + intros l' Hl'. rewrite length_alter. apply Hin. by right.
    + f_equal. f_equal; apply list_eq; intros j; rewrite !list_lookup_imap.
      * rewrite class_correct_cons.
        destruct (Z.eqb_spec l p) as [<-|Hne].
        -- rewrite list_lookup_alter. destruct (decide (Z.to_nat l = j)) as [<-|Hj].
           ++ destruct (classes !! Z.to_nat l); cbn; f_equal.
              rewrite decide_True by lia. lia.
           ++ destruct (classes !! j); cbn; f_equal.
              rewrite decide_False by lia. lia.
        -- destruct (classes !! j); cbn; f_equal.
           rewrite decide_False by (intros [? ?]; congruence). lia.
      * rewrite class_total_cons, list_lookup_alter.
        destruct (decide (Z.to_nat l = j)) as [<-|Hj].
        -- destruct (f_v !! Z.to_nat l); cbn; f_equal.
           rewrite decide_True by lia. lia.
        -- destruct (f_v !! j); cbn; f_equal.
           rewrite decide_False by lia. lia.
Qed.

(** One label outside the index range of the arrays aborts the loop. *)
Lemma per_class_loop_index_error (lps : list (Z * Z)) (classes f_v : list nat) :
  length classes = length f_v ->
  Exists (fun lp => ~ (- Z.of_nat (length f_v) <= lp.1 < Z.of_nat (length f_v))) lps ->
  per_class_loop lps classes f_v = Raise IndexError.
Proof.
  revert classes f_v. induction lps as [|[l p] lps IH]; intros classes f_v Hk Hex.
  - inversion Hex.
  - cbn [per_class_loop]. unfold np_incr at 1.
    destruct (np_index (length f_v) l) as [j|e] eqn:Hj.
    + apply np_index_bound in Hj as Hb. cbn [rbind].
      apply Exists_cons in Hex as [Hbad|Hex]; [cbn in Hbad; lia|].
      destruct (l =? p).
      * unfold np_incr. rewrite Hk, Hj. cbn [rbind].
        apply IH; rewrite !length_alter; done.
      * cbn [rbind]. apply IH; rewrite ?length_alter; done.
    + cbn [rbind]. unfold np_index in Hj.
      destruct (_ && _); [discriminate|]. destruct (_ && _); [discriminate|].
      congruence.
Qed.

Lemma length_np_unique (labels : list Z) :
  length (np_unique labels) = length (remove_dups labels).
Proof. unfold np_unique. by rewrite merge_sort_Permutation. Qed.

(** When every label is a valid class index below the number of distinct
    labels, the labels observed are exactly the classes [0 .. k-1]. *)
Lemma contiguous_labels (labels : list Z) :
  (forall l, l ∈ labels -> 0 <= l < Z.of_nat (length (np_unique labels))) ->
  forall c : nat, (c < length (np_unique labels))%nat <-> Z.of_nat c ∈ labels.
Proof.
  intros Hin c. rewrite length_np_unique in *.
  set (k := length (remove_dups labels)) in *.
  split; [|intros H%Hin; lia].
  intros Hc.
  assert (remove_dups labels ≡ₚ Z.of_nat <$> seq 0 k) as Hperm.
  { apply submseteq_length_Permutation; [|by rewrite length_fmap, length_seq].
    apply NoDup_submseteq; [apply NoDup_remove_dups|].
    intros l Hl%elem_of_remove_dups%Hin.
    apply list_elem_of_fmap. exists (Z.to_nat l). split; [lia|].
    apply elem_of_seq. lia. }
  apply elem_of_remove_dups. rewrite Hperm.
  apply list_elem_of_fmap. exists c. split; [done|]. apply elem_of_seq. lia.
Qed.

Lemma compute_per_class_accuracy_contiguous (labels preds : list Z) :
  length labels = length preds ->
  (forall l, l ∈ labels -> 0 <= l < Z.of_nat (length (np_unique labels))) ->
  compute_per_class_accuracy labels preds
    = Ok (class_fraction labels preds <$> seq 0 (length (np_unique labels))).
Proof.
  intros Hlen Hin. unfold compute_per_class_accuracy.
  rewrite Hlen, Nat.eqb_refl. cbn [negb]. rewrite length_replicate.
  pose proof (contiguous_labels labels Hin) as Hcont.
  set (k := length (np_unique labels)) in *.
  rewrite per_class_loop_counts; [|done|by rewrite !length_replicate|
                                  by rewrite length_replicate].
  cbn [rbind fst snd]. f_equal. apply list_eq. intros j.
  rewrite lookup_zip_with, !list_lookup_imap, list_lookup_fmap.
  destruct (decide (j < k)%nat) as [Hj|Hj].
  - rewrite (lookup_replicate_2 k 0%nat j Hj), lookup_seq_lt by done.
    cbn. f_equal. unfold class_fraction. apply np_true_divide_counts.
    apply class_total_pos, Hcont, Hj.
  - rewrite (proj1 (lookup_replicate_None k 0%nat j)) by lia.
    rewrite lookup_seq_ge by lia. reflexivity.
Qed.

Lemma compute_per_class_accuracy_gap (labels preds : list Z) :
  length labels = length preds ->
  (exists l, l ∈ labels /\ Z.of_nat (length (np_unique labels)) <= l) ->
  compute_per_class_accuracy labels preds = Raise IndexError.
Proof.
  intros Hlen (l & Hl & Hge). unfold compute_per_class_accuracy.
  rewrite Hlen, Nat.eqb_refl. cbn [negb]. rewrite length_replicate.
  rewrite per_class_loop_index_error; [reflexivity|by rewrite !length_replicate|].
  rewrite length_replicate. apply Exists_exists.
  apply list_elem_of_lookup in Hl as [i Hi].
  destruct (lookup_lt_is_Some_2 preds i) as [p Hp].
  { rewrite <- Hlen. eapply lookup_lt_Some, Hi. }
  exists (l, p). split; [|cbn; lia].
  apply list_elem_of_lookup. exists i. by apply lookup_zip_Some.
Qed.

(** C1 (amended): for equal-length sequences with non-negative labels,
    [compute_per_class_accuracy] returns, when every label is below the
    number [k] of distinct labels (the labels observed are then exactly
    the classes [0 .. k-1], [k-1] being the largest), for each class index
    from 0 up to the largest observed label the fraction of that class's
    examples that were predicted correctly; when some label is [k] or
    more, so that a class below the largest label has no example, the call
    fails with [IndexError] instead of yielding an undefined ratio. *)
Theorem compute_per_class_accuracy_spec (labels preds : list Z) :
  length labels = length preds ->
  (forall l, l ∈ labels -> 0 <= l) ->
  let k := length (np_unique labels) in
  ((forall l, l ∈ labels -> l < Z.of_nat k) ->
     compute_per_class_accuracy labels preds
       = Ok (class_fraction labels preds <$> seq 0 k)
     /\ (forall c : nat, (c < k)%nat <-> Z.of_nat c ∈ labels))
  /\ ((exists l, l ∈ labels /\ Z.of_nat k <= l) ->
     compute_per_class_accuracy labels preds = Raise IndexError).
Proof.
  intros Hlen Hnn k. split.
  - intros Hlt.
    assert (forall l, l ∈ labels -> 0 <= l < Z.of_nat k) as Hin
      by (intros l Hl; split; auto).
    split; [by apply compute_per_class_accuracy_contiguous|].
    by apply contiguous_labels.
  - by apply compute_per_class_accuracy_gap.
Qed.

Lemma compute_per_class_accuracy_spec_witness :
  compute_per_class_accuracy [0; 0; 1; 1] [0; 1; 1; 0]
    = Ok [Fin (1 # 2); Fin (1 # 2)]
  /\ compute_per_class_accuracy [0; 0; 3; 3] [0; 1; 3; 0] = Raise IndexError.
Proof.
  assert (forall xs : list Z, Forall (fun l => 0 <= l) xs ->
            forall l, l ∈ xs -> 0 <= l) as Hnn
    by (intros xs H; apply Forall_forall, H).
  split.
  - destruct (compute_per_class_accuracy_spec [0; 0; 1; 1] [0; 1; 1; 0])
      as [Hok _]; [reflexivity | apply Hnn; repeat constructor; lia |].
    destruct Hok as [-> _]; [|reflexivity].
    apply Forall_forall. repeat constructor.
  - destruct (compute_per_class_accuracy_spec [0; 0; 3; 3] [0; 1; 3; 0])
      as [_ Herr]; [reflexivity | apply Hnn; repeat constructor; lia |].
    apply Herr. exists 3. split; [|vm_compute; discriminate]. do 2 right. left.
Defined.

(** C1, as stated, fails when a class below the largest label has no
    example: labels [0, 2] make the call raise rather than return values
    for the classes 0, 1 and 2. *)
Lemma compute_per_class_accuracy_gap_no_value :
  length [0; 2] = length [0; 2]
  /\ ~ exists v : list float, compute_per_class_accuracy [0; 2] [0; 2] = Ok v.
Proof.
  split; [reflexivity|]. intros [v Hv]. discriminate Hv.
Qed.

(** With non-negative labels a returned array never holds an undefined
    ratio: every class it covers has at least one example. *)
Lemma compute_per_class_accuracy_defined (labels preds : list Z) (v : list float) :
  (forall l, l ∈ labels -> 0 <= l) ->
  compute_per_class_accuracy labels preds = Ok v ->
  v = class_fraction labels preds <$> seq 0 (length (np_unique labels))
  /\ forall c, (c < length v)%nat -> (0 < class_total (Z.of_nat c) labels)%nat.
Proof.
  intros Hnn Hv.
  destruct (decide (length labels = length preds)) as [Hlen|Hlen]; cycle 1.
  { unfold compute_per_class_accuracy in Hv.
    destruct (Nat.eqb_spec (length labels) (length preds)); [done|discriminate]. }
  destruct (decide (Forall (fun l => l < Z.of_nat (length (np_unique labels))) labels))
    as [Hall|Hnot].
  - rewrite Forall_forall in Hall.
    assert (forall l, l ∈ labels ->
              0 <= l < Z.of_nat (length (np_unique labels))) as Hin
      by (intros l Hl; split; auto).
    rewrite compute_per_class_accuracy_contiguous in Hv by done.
    injection Hv as <-. split; [done|].
    intros c Hc. rewrite length_fmap, length_seq in Hc.
    by apply class_total_pos, contiguous_labels.
  - apply not_Forall_Exists in Hnot; [|apply _].
    apply Exists_exists in Hnot as (l & Hl & Hge).
    unfold compose in Hge.
    rewrite compute_per_class_accuracy_gap in Hv; [discriminate|done|].
    exists l. split; [done | lia].
Qed.

(** The division itself is not guarded: a negative label, which numpy reads
    as an index from the end, can leave a cell of [f_v] at zero, and the
    ratio of that cell is [nan]. *)
Example compute_per_class_accuracy_nan :
  compute_per_class_accuracy [-2; 0] [-2; 0] = Ok [Fin 1; NaN].
Proof. reflexivity. Qed.

Example compute_per_class_accuracy_all_correct :
  compute_per_class_accuracy [0; 0; 0] [0; 0; 0] = Ok [Fin 1].
Proof. reflexivity. Qed.

(** *** Sums of counts *)

Lemma sum_list_append (l k : list nat) :
  sum_list (l ++ k) = (sum_list l + sum_list k)%nat.
Proof. induction l as [|x l IH]; cbn; [reflexivity | rewrite IH; lia]. Qed.

(* ================================================================== *)
(** * Properties of the network *)

Lemma CNN_init_inv (hh ww ch cc : nat) (p : Q) (m : CNN) :
  CNN_init hh ww ch cc p = Ok m ->
  class_count m = cc
  /\ conv1 m = {| in_channels := ch; out_channels := 32;
                  conv_kernel_size := (5, 5); conv_padding := (2, 2) |}%nat
  /\ fc2 m = {| in_features := 1024; out_features := 10 |}
  /\ training m = true.
Proof.
  unfold CNN_init. destruct (Dropout_init p); cbn [rbind]; [|discriminate].
  intros [= <-]. repeat split.
Qed.

(** Whatever [class_count], [height] and [width] the model was constructed
    with, a batch of [n] images of 32x32 pixels and 3 channels is mapped to
    [n] rows of 10 scores.  In training mode batch normalisation needs at
    least two examples. *)
Lemma CNN_forward_shape (hh ww cc : nat) (p : Q) (m : CNN) (tr : bool) (n : nat) :
  CNN_init hh ww 3 cc p = Ok m ->
  (tr = true -> (2 <= n)%nat) ->
  CNN_forward (if tr then CNN_train m else CNN_eval m) [n; 3; 32; 32]%nat
    = Ok [n; 10]%nat.
Proof.
  unfold CNN_init. destruct (Dropout_init p) as [d|]; cbn [rbind]; [|discriminate].
  intros [= <-] Hn. destruct tr.
  - specialize (Hn eq_refl). destruct n as [|[|n]]; [lia..|].
    vm_compute. reflexivity.
  - vm_compute. reflexivity.
Qed.

Lemma CNN_forward_single_example_training (hh ww cc : nat) (p : Q) (m : CNN) :
  CNN_init hh ww 3 cc p = Ok m ->
  CNN_forward m [1; 3; 32; 32]%nat = Raise ValueError.
Proof.
  unfold CNN_init. destruct (Dropout_init p) as [d|]; cbn [rbind]; [|discriminate].
  intros [= <-]. vm_compute. reflexivity.
Qed.

(** C3: evaluation of the code at a model constructed with
    [class_count = 5]: a batch of shape (2, 3, 32, 32) yields an output of
    shape (2, 10), not (2, 5), in training mode and in evaluation mode
    alike; the last layer is [nn.Linear(1024, 10)] for every class count. *)
Theorem CNN_forward_class_count_5 :
  (let? m := CNN_init 32 32 3 5 0 in CNN_forward m [2; 3; 32; 32]%nat)
    = Ok [2; 10]%nat
  /\ (let? m := CNN_init 32 32 3 5 0 in CNN_forward (CNN_eval m) [2; 3; 32; 32]%nat)
    = Ok [2; 10]%nat
  /\ (let? m := CNN_init 32 32 3 5 0 in Ok (class_count m, out_features (fc2 m)))
    = Ok (5, 10)%nat.
Proof. vm_compute. repeat split. Qed.

(* ================================================================== *)
(** * Properties of run-directory naming *)

Section RunDirectoryProperties.
Context {Number Path : Type}.
Variable str_number : Number -> string.
Variable joinpath : Path -> string -> Path.
Variable path_exists : Path -> bool.
Variable str_path : Path -> string.
Variable args : Namespace Number Path.
Variable n_parameters : Z.

Local Abbreviation cand := (candidate str_number joinpath args n_parameters).
Local Abbreviation probe_from :=
  (probe str_number joinpath path_exists args n_parameters).

(** The loop stops at the first free candidate at or after [i]. *)
Lemma probe_first_free (remaining i d : nat) (last : Path) :
  (d < remaining)%nat ->
  path_exists (cand (i + d)) = false ->
  (forall j, (j < d)%nat -> path_exists (cand (i + j)) = true) ->
  probe_from remaining i last = (cand (i + d), cand <$> seq i (S d)).
Proof.
  revert i d last. induction remaining as [|remaining IH];
    intros i d last Hd Hfree Htaken; [lia|].
  cbn [probe]. destruct d as [|d].
  - rewrite Nat.add_0_r in *. rewrite Hfree. reflexivity.
  - rewrite <- (Nat.add_0_r i) at 1. rewrite Htaken by lia. cbn [negb].
    rewrite (IH (S i) d).
    + cbn [fst snd]. replace (S i + d)%nat with (i + S d)%nat by lia.
      reflexivity.
    + lia.
    + by replace (S i + d)%nat with (i + S d)%nat by lia.
    + intros j Hj. replace (S i + j)%nat with (i + S j)%nat by lia.
      apply Htaken. lia.
Qed.

(** When every remaining candidate is taken the loop runs out and leaves
    [tb_log_dir] at the last one probed. *)
Lemma probe_all_taken (remaining i : nat) (last : Path) :
  (forall j, (j < remaining)%nat -> path_exists (cand (i + j)) = true) ->
  probe_from remaining i last =
    (match remaining with O => last | S r => cand (i + r) end,
     cand <$> seq i remaining).
Proof.
  revert i last. induction remaining as [|remaining IH]; intros i last Htaken;
    [reflexivity|].
  cbn [probe]. rewrite <- (Nat.add_0_r i) at 1. rewrite Htaken by lia.
  cbn [negb]. rewrite IH.
  - cbn [fst snd fmap list_fmap seq]. f_equal.
    destruct remaining; [by rewrite Nat.add_0_r|].
    f_equal. lia.
  - intros j Hj. replace (S i + j)%nat with (i + S j)%nat by lia.
    apply Htaken. lia.
Qed.

(** C4: run-directory naming returns the path with the smallest suffix
    [i], counted from 0, whose path does not exist yet, after probing
    exactly the suffixes [0 .. i], at most 1000 of them; when the paths of
    all 1000 suffixes exist it returns the path with suffix 999. *)
Theorem get_summary_writer_log_dir_first_free :
  (forall i : nat,
      (i < 1000)%nat ->
      path_exists (cand i) = false ->
      (forall j, (j < i)%nat -> path_exists (cand j) = true) ->
      get_summary_writer_log_dir str_number joinpath path_exists str_path
        args n_parameters = str_path (cand i)
      /\ probed_paths str_number joinpath path_exists args n_parameters
         = cand <$> seq 0 (S i))
  /\ ((forall j, (j < 1000)%nat -> path_exists (cand j) = true) ->
      get_summary_writer_log_dir str_number joinpath path_exists str_path
        args n_parameters = str_path (cand 999)
      /\ probed_paths str_number joinpath path_exists args n_parameters
         = cand <$> seq 0 1000).
Proof.
  unfold get_summary_writer_log_dir, probed_paths. split.
  - intros i Hi Hfree Htaken.
    rewrite (probe_first_free 1000 0 i); done.
  - intros Htaken.
    rewrite (probe_all_taken 1000 0); done.
Qed.
End RunDirectoryProperties.

Lemma get_summary_writer_log_dir_first_free_witness :
  get_summary_writer_log_dir id string_joinpath
    (listed [default_run 0; default_run 1; default_run 3]) id
    default_args 4261514 = default_run 2
  /\ get_summary_writer_log_dir id string_joinpath (fun _ => true) id
       default_args 4261514 = default_run 999.
Proof.
  split.
  - destruct (get_summary_writer_log_dir_first_free id string_joinpath
                (listed [default_run 0; default_run 1; default_run 3]) id
                default_args 4261514) as [Hfree _].
    destruct (Hfree 2%nat) as [-> _]; [lia | reflexivity | | reflexivity].
    intros [|[|j]] Hj; [reflexivity | reflexivity | lia].
  - destruct (get_summary_writer_log_dir_first_free id string_joinpath
                (fun _ => true) id default_args 4261514) as [_ Hall].
    destruct Hall as [-> _]; reflexivity.
Defined.

(** The second call with the same configuration, once the first run's
    directory exists, is given suffix 1. *)
Example get_summary_writer_log_dir_second_run :
  get_summary_writer_log_dir id string_joinpath (listed [default_run 0]) id
    default_args 4261514 = default_run 1.
Proof. vm_compute. reflexivity. Qed.

(* ================================================================== *)
(** * Properties of the trainer *)

Section TrainerProperties.
Context {Batch Params : Type}.
Variable batch_labels : Batch -> list Z.
Variable predict : Params -> bool -> Batch -> list Z.
Variable criterion : Params -> bool -> Batch -> float.
Variable optimise : Params -> Batch -> Params.
Variable data_load_time : Z -> float.
Variable step_time : Z -> float.

Local Abbreviation validate_ :=
  (validate Batch batch_labels Params predict criterion).
Local Abbreviation accumulate_ :=
  (validate_accumulate Batch batch_labels Params predict criterion).
Local Abbreviation train_batch_ :=
  (train_batch Batch batch_labels Params predict criterion optimise
     data_load_time step_time).
Local Abbreviation train_epoch_ :=
  (train_epoch Batch batch_labels Params predict criterion optimise
     data_load_time step_time).
Local Abbreviation train_ :=
  (train Batch batch_labels Params predict criterion optimise
     data_load_time step_time).

(** *** The monad *)

Lemma bind_Return {A B : Type} (m : M Batch Params A) (k : A -> M Batch Params B)
    (st st' : Trainer Batch Params) (b : B) (evs : list Event) :
  bind m k st = Return b st' evs ->
  exists a st1 evs1 evs2,
    m st = Return a st1 evs1 /\ k a st1 = Return b st' evs2 /\ evs = evs1 ++ evs2.
Proof.
  unfold bind. destruct (m st) as [a st1 evs1|]; [|discriminate].
  destruct (k a st1) as [b' st2 evs2|] eqn:Hk; [|discriminate].
  intros [= -> -> <-]. eauto 10.
Qed.

Lemma lift_Return {A : Type} (r : result A) (st st' : Trainer Batch Params)
    (a : A) (evs : list Event) :
  lift r st = Return a st' evs -> r = Ok a /\ st' = st /\ evs = [].
Proof. unfold lift. destruct r; [|discriminate]. by intros [= -> -> <-]. Qed.

Lemma validate_calls_app (evs1 evs2 : list Event) :
  validate_calls (evs1 ++ evs2) = validate_calls evs1 ++ validate_calls evs2.
Proof. apply omap_app. Qed.

(** *** Events of a validation and the restoring of training mode *)

Lemma validate_calls_validation (evs : list Event) :
  Forall validation_event evs -> validate_calls evs = [].
Proof.
  induction 1 as [|ev evs Hev _ IH]; [reflexivity|].
  destruct ev; try done; exact IH.
Qed.

Lemma validate_calls_elem (pre post : list Event) (e : Z) :
  e ∈ validate_calls (pre ++ CallValidate e :: post).
Proof.
  rewrite validate_calls_app. apply elem_of_app. right. left.
Qed.

Lemma validations_restored_no_call (evs : list Event) :
  validate_calls evs = [] -> validations_restored evs.
Proof.
  intros Hnone pre e post ->.
  pose proof (validate_calls_elem pre post e) as Hin.
  rewrite Hnone in Hin. inversion Hin.
Qed.

Lemma validations_restored_app (evs1 evs2 : list Event) :
  validations_restored evs1 -> validations_restored evs2 ->
  validations_restored (evs1 ++ evs2).
Proof.
  intros H1 H2 pre e post Heq.
  apply app_eq_inv in Heq as [(k & -> & Hpost)|(k & -> & Hk)].
  - destruct k as [|ev k].
    + cbn in Hpost. apply (H2 [] e post). by rewrite <- Hpost.
    + cbn in Hpost. injection Hpost as <- ->.
      destruct (H1 _ _ _ eq_refl) as (vevs & rest & -> & Hv).
      exists vevs, (rest ++ evs2). split; [|done].
      by rewrite <- app_assoc.
  - eapply H2. exact Hk.
Qed.

Lemma validations_restored_block (e : Z) (vevs : list Event) :
  Forall validation_event vevs ->
  validations_restored (CallValidate e :: vevs ++ [ModelTrain]).
Proof.
  intros Hv pre e' post Heq. destruct pre as [|ev pre].
  - injection Heq as <- <-. exists vevs, []. done.
  - injection Heq as <- Heq. exfalso.
    assert (e' ∈ validate_calls (vevs ++ [ModelTrain])) as Hin
      by (rewrite Heq; apply validate_calls_elem).
    rewrite validate_calls_app, (validate_calls_validation vevs Hv) in Hin.
    inversion Hin.
Qed.

(** *** [validate] *)

(** The labels and predictions that a call of [validate] in state [st]
    accumulates, and the loss it sums. *)
Local Abbreviation val_results st :=
  (accumulate_ (params (model st)) false
     (dl_batches (val_loader st) (dl_passes (val_loader st)))).

(** What [validate] leaves of the trainer, whether it returns or raises:
    evaluation mode and one more pass over the validation loader. *)
Local Abbreviation after_validate st :=
  {| model := {| params := params (model st); training_flag := false |};
     train_loader := train_loader st;
     val_loader := next_pass (val_loader st);
     step := step st |}.

Lemma validate_outcome (st : Trainer Batch Params) :
  validate_ st =
    match compute_per_class_accuracy (val_results st).1.2 (val_results st).1.1 with
    | Raise e => Throw e (after_validate st) [ModelEval]
    | Ok accuracy =>
        match py_truediv (val_results st).2 (Z.of_nat (dl_len (val_loader st))) with
        | Raise e => Throw e (after_validate st) [ModelEval]
        | Ok average_loss =>
            Return tt (after_validate st)
              [ModelEval;
               AddScalars "accuracy" "test" (mean_accuracy accuracy) (step st);
               AddScalars "loss" "test" average_loss (step st);
               PrintValidation average_loss accuracy]
        end
    end.
Proof.
  unfold validate, bind, model_eval, model_set_training, iter_val_loader,
    get, put, emit, ret, lift.
  cbn -[compute_per_class_accuracy py_truediv validate_accumulate].
  destruct (compute_per_class_accuracy _ _); [|reflexivity].
  destruct (py_truediv _ _); reflexivity.
Qed.

Lemma validate_events_validation (st : Trainer Batch Params) :
  Forall validation_event (outcome_events (validate_ st)).
Proof.
  rewrite validate_outcome.
  destruct (compute_per_class_accuracy _ _); [|repeat constructor].
  destruct (py_truediv _ _); repeat constructor.
Qed.

(** *** One training step *)

Lemma train_batch_Return (epoch pf lf : Z) (b : Batch)
    (st st' : Trainer Batch Params) (evs : list Event) :
  train_batch_ epoch pf lf b st = Return tt st' evs ->
  step st' = step st + 1
  /\ training_flag (model st') = training_flag (model st)
  /\ train_loader st' = train_loader st
  /\ val_loader st' = val_loader st
  /\ validate_calls evs = [].
Proof.
  unfold train_batch, optimise_on, log_metrics, print_metrics, incr_step,
    when, bind, get, put, emit, ret, lift.
  cbn -[compute_accuracy py_mod].
  destruct (compute_accuracy _ _); cbn -[py_mod]; [|discriminate].
  destruct (py_mod (step st + 1) lf) as [r_log|]; cbn -[py_mod]; [|discriminate].
  destruct (r_log =? 0); cbn -[py_mod];
    (destruct (py_mod (step st + 1) pf) as [r_print|]; cbn -[py_mod];
     [|discriminate]);
    (destruct (r_print =? 0); cbn -[py_mod];
     try (destruct (py_mod (step st) _); cbn -[py_mod]; [|discriminate]));
    intros [= <- <-]; cbn; repeat split.
Qed.

Lemma train_batches_Return (epoch pf lf : Z) (batches : list Batch)
    (st st' : Trainer Batch Params) (evs : list Event) :
  for_each batches (train_batch_ epoch pf lf) st = Return tt st' evs ->
  step st' = step st + Z.of_nat (length batches)
  /\ training_flag (model st') = training_flag (model st)
  /\ train_loader st' = train_loader st
  /\ val_loader st' = val_loader st
  /\ validate_calls evs = [].
Proof.
  revert st evs. induction batches as [|b batches IH]; intros st evs H.
  - injection H as <- <-. cbn. repeat split. lia.
  - cbn [for_each] in H.
    apply bind_Return in H as ([] & st1 & evs1 & evs2 & Hb & Hrest & ->).
    apply train_batch_Return in Hb as (Hs & Hf & Ht & Hv & Hc).
    apply IH in Hrest as (Hs' & Hf' & Ht' & Hv' & Hc').
    rewrite validate_calls_app, Hc, Hc'. cbn [length].
    repeat split; try congruence. lia.
Qed.

(** *** One epoch *)

Lemma py_mod_Ok (a b r : Z) : py_mod a b = Ok r -> b <> 0 /\ r = a mod b.
Proof.
  unfold py_mod. destruct (Z.eqb_spec b 0); [discriminate|]. by intros [= <-].
Qed.

Lemma validate_Return (st st' : Trainer Batch Params) (evs : list Event) :
  validate_ st = Return tt st' evs ->
  st' = after_validate st
  /\ exists accuracy average_loss,
       compute_per_class_accuracy (val_results st).1.2 (val_results st).1.1
         = Ok accuracy
       /\ evs = [ModelEval;
                 AddScalars "accuracy" "test" (mean_accuracy accuracy) (step st);
                 AddScalars "loss" "test" average_loss (step st);
                 PrintValidation average_loss accuracy].
Proof.
  rewrite validate_outcome.
  destruct (compute_per_class_accuracy _ _) as [accuracy|]; [|discriminate].
  destruct (py_truediv _ _) as [average_loss|]; [|discriminate].
  intros [= <- <-]. eauto.
Qed.

Lemma train_epoch_Return (V pf lf epoch : Z)
    (st st' : Trainer Batch Params) (evs : list Event) :
  train_epoch_ V pf lf epoch st = Return tt st' evs ->
  step st' = step st
             + Z.of_nat (length (dl_batches (train_loader st)
                                            (dl_passes (train_loader st))))
  /\ train_loader st' = next_pass (train_loader st)
  /\ training_flag (model st') = true
  /\ validate_calls evs = (if decide ((epoch + 1) mod V = 0) then [epoch] else [])
  /\ validations_restored evs.
Proof.
  unfold train_epoch. intros H.
  apply bind_Return in H as ([] & st1 & evs1 & evs2 & H1 & H & ->).
  injection H1 as <- <-.
  apply bind_Return in H as (batches & st2 & evs1 & evs3 & H2 & H & ->).
  injection H2 as <- <- <-.
  apply bind_Return in H as ([] & st3 & evs_b & evs4 & Hb & H & ->).
  apply train_batches_Return in Hb as (Hs & Hf & Ht & Hv & Hc).
  cbn in Hs, Hf, Ht, Hv.
  apply bind_Return in H as (st3' & ? & ? & evs5 & [= <- <- <-] & H & ->).
  apply bind_Return in H as ([] & ? & ? & evs6 & [= <- <-] & H & ->).
  apply bind_Return in H as (r & ? & ? & evs7 & Hr & H & ->).
  apply lift_Return in Hr as (Hr & -> & ->).
  apply py_mod_Ok in Hr as [HV ->].
  unfold when in H. destruct (Z.eqb_spec ((epoch + 1) mod V) 0) as [Hz|Hz].
  - rewrite decide_True by done.
    apply bind_Return in H as ([] & ? & ? & evs8 & [= <- <-] & H & ->).
    apply bind_Return in H as ([] & st4 & evs_v & evs9 & Hval & H & ->).
    injection H as <- <-.
    pose proof (validate_events_validation st3) as Hvev.
    rewrite Hval in Hvev. cbn [outcome_events] in Hvev.
    apply validate_Return in Hval as [-> _]. cbn.
    repeat split; try done.
    + rewrite validate_calls_app, Hc. cbn.
      change (CallValidate epoch :: evs_v ++ [ModelTrain])
        with ([CallValidate epoch] ++ evs_v ++ [ModelTrain]).
      rewrite !validate_calls_app, (validate_calls_validation evs_v Hvev).
      reflexivity.
    + assert (ModelTrain :: evs_b ++ AddScalar "epoch" (float_of_Z epoch) (step st3)
                :: CallValidate epoch :: evs_v ++ [ModelTrain]
              = (ModelTrain :: evs_b
                   ++ [AddScalar "epoch" (float_of_Z epoch) (step st3)])
                  ++ CallValidate epoch :: evs_v ++ [ModelTrain]) as ->
        by (cbn; by rewrite <- app_assoc).
      apply validations_restored_app.
      * apply validations_restored_no_call.
        change (ModelTrain :: ?l) with ([ModelTrain] ++ l).
        by rewrite !validate_calls_app, Hc.
      * by apply validations_restored_block.
  - rewrite decide_False by done. injection H as <- <-. cbn.
    repeat split; try done.
    + by rewrite validate_calls_app, Hc.
    + apply (validations_restored_no_call (ModelTrain :: _)). cbn.
      by rewrite validate_calls_app, Hc.
Qed.

(** *** The loop over the epochs *)

Lemma total_batches_S (l : DataLoader Batch) (n : nat) :
  total_batches l (S n) =
  (length (dl_batches l (dl_passes l)) + total_batches (next_pass l) n)%nat.
Proof.
  unfold total_batches. cbn [seq fmap list_fmap sum_list dl_passes dl_batches next_pass].
  rewrite Nat.add_0_r. f_equal. rewrite <- fmap_S_seq, <- list_fmap_compose.
  f_equal. apply list_fmap_ext. intros _ i _. cbn. f_equal. f_equal. lia.
Qed.

Lemma train_epochs_Return (V pf lf : Z) (es : list Z)
    (st st' : Trainer Batch Params) (evs : list Event) :
  for_each es (train_epoch_ V pf lf) st = Return tt st' evs ->
  step st' = step st + Z.of_nat (total_batches (train_loader st) (length es))
  /\ validate_calls evs = filter (fun e => (e + 1) mod V = 0) es
  /\ validations_restored evs
  /\ (training_flag (model st) = true -> training_flag (model st') = true).
Proof.
  revert st evs. induction es as [|e es IH]; intros st evs H.
  - injection H as <- <-. repeat split; [cbn; lia | |done].
    by apply validations_restored_no_call.
  - cbn [for_each] in H.
    apply bind_Return in H as ([] & st1 & evs1 & evs2 & He & Hrest & ->).
    apply train_epoch_Return in He as (Hs & Ht & Hf & Hc & Hr).
    apply IH in Hrest as (Hs' & Hc' & Hr' & Hf').
    cbn [length]. rewrite total_batches_S, validate_calls_app, Hc, Hc', filter_cons.
    rewrite Ht in Hs'. repeat split.
    + lia.
    + by destruct (decide ((e + 1) mod V = 0)).
    + by apply validations_restored_app.
    + auto.
Qed.

Lemma py_range_snoc (a b : Z) :
  a <= b -> py_range a (b + 1) = py_range a b ++ [b].
Proof.
  intros Hab. unfold py_range.
  replace (Z.to_nat (b + 1 - a)) with (S (Z.to_nat (b - a))) by lia.
  rewrite seq_S, fmap_app. cbn. do 2 f_equal. lia.
Qed.

Lemma length_py_range (a b : Z) : length (py_range a b) = Z.to_nat (b - a).
Proof. unfold py_range. by rewrite length_fmap, length_seq. Qed.

(** The epochs of [range(0, n)] after which validation is due are
    [V-1, 2V-1, ...], [n / V] of them. *)
Lemma validation_schedule (V : Z) (n : nat) :
  1 <= V ->
  filter (fun e => (e + 1) mod V = 0) (py_range 0 (Z.of_nat n))
  = (fun k => k * V - 1) <$> py_range 1 (Z.of_nat n / V + 1).
Proof.
  intros HV. induction n as [|n IH].
  - rewrite Z.div_0_l by lia. reflexivity.
  - replace (Z.of_nat (S n)) with (Z.of_nat n + 1) by lia.
    rewrite py_range_snoc, filter_app, IH by lia.
    rewrite filter_cons, filter_nil.
    destruct (decide ((Z.of_nat n + 1) mod V = 0)) as [Hz|Hz].
    + assert (Z.of_nat n + 1 = V * ((Z.of_nat n + 1) / V)) as Hex
        by (apply Z.div_exact; [lia | done]).
      replace ((Z.of_nat n + 1) / V) with (Z.of_nat n / V + 1) in *
        by (Z.div_mod_to_equations; nia).
      assert (0 <= Z.of_nat n / V) by (apply Z.div_pos; lia).
      rewrite (py_range_snoc 1 (Z.of_nat n / V + 1)), fmap_app by lia.
      cbn. do 2 f_equal. lia.
    + replace ((Z.of_nat n + 1) / V) with (Z.of_nat n / V)
        by (Z.div_mod_to_equations; nia).
      by rewrite app_nil_r.
Qed.

(** *** Runs that do not raise *)

Local Abbreviation train_data_ok_ :=
  (train_data_ok Batch batch_labels Params predict).
Local Abbreviation val_data_ok_ :=
  (val_data_ok Batch batch_labels Params predict criterion).











(** C6: the step counter of a fresh trainer is 0; every training batch
    processed increases it by exactly 1; an epoch adds the number of its
    batches and its end (the epoch record, a validation, the mode switch)
    leaves the counter alone; after a run of [train] on a fresh trainer the
    counter equals the total number of batches processed in all epochs. *)
Theorem step_counts_training_batches :
  (forall (m : Model Params) (tl vl : DataLoader Batch),
      step (Trainer_init m tl vl) = 0)
  /\ (forall epoch pf lf b (st st' : Trainer Batch Params) evs,
        train_batch_ epoch pf lf b st = Return tt st' evs ->
        step st' = step st + 1)
  /\ (forall V pf lf epoch (st st' : Trainer Batch Params) evs,
        train_epoch_ V pf lf epoch st = Return tt st' evs ->
        step st' = step st
                   + Z.of_nat (length (dl_batches (train_loader st)
                                                  (dl_passes (train_loader st)))))
  /\ (forall E V pf lf start (m : Model Params) (tl vl : DataLoader Batch) st' evs,
        train_ E V pf lf start (Trainer_init m tl vl) = Return tt st' evs ->
        step st' = Z.of_nat (total_batches tl (length (py_range start E)))).
Proof.
  split; [reflexivity|]. split; [|split].
  - intros epoch pf lf b st st' evs H. by apply train_batch_Return in H as [? _].
  - intros V pf lf epoch st st' evs H. by apply train_epoch_Return in H as [? _].
  - intros E V pf lf start m tl vl st' evs H. unfold train in H.
    apply bind_Return in H as ([] & st1 & evs1 & evs2 & H1 & H & ->).
    injection H1 as <- <-.
    apply train_epochs_Return in H as (Hs & _). exact Hs.
Qed.

(** C8: whether [validate] returns or raises, it leaves the step counter
    as it found it, and with it the parameters of the model and the
    training loader; every observation it files is filed under that
    unchanged step, and it produces no event other than its own.  The
    epoch index is a local variable of [train] and no part of the state
    that [validate] is given. *)
Theorem validate_preserves_training_state (st : Trainer Batch Params) :
  step (outcome_state (validate_ st)) = step st
  /\ params (model (outcome_state (validate_ st))) = params (model st)
  /\ train_loader (outcome_state (validate_ st)) = train_loader st
  /\ Forall (fun ev => forall s, event_step ev = Some s -> s = step st)
            (outcome_events (validate_ st))
  /\ Forall validation_event (outcome_events (validate_ st)).
Proof.
  split; [|split; [|split; [|split]]]; try apply validate_events_validation;
    rewrite validate_outcome;
    destruct (compute_per_class_accuracy _ _); try destruct (py_truediv _ _);
    try reflexivity; repeat constructor; cbn; congruence.
Qed.

(** *** The accuracy that [validate] reports *)

End TrainerProperties.


Lemma step_counts_training_batches_witness :
  step (outcome_state (demo_train 3 2 10 10 0 demo_trainer)) = 6.
Proof.
  destruct (step_counts_training_batches (Batch := list Z * list Z) (Params := unit)
              fst (fun _ _ b => b.2) (fun _ _ _ => Fin 0)
              (fun p _ => p) (fun _ => Fin 0) (fun _ => Fin 0))
    as (_ & _ & _ & Htrain).
  apply (Htrain 3 2 10 10 0 {| params := tt; training_flag := true |}
           demo_train_loader demo_val_loader
           (outcome_state (demo_train 3 2 10 10 0 demo_trainer))
           (outcome_events (demo_train 3 2 10 10 0 demo_trainer))).
  vm_compute. reflexivity.
Defined.



(* ================================================================== *)
(** * Further properties of the metrics utilities *)

Lemma zip_with_eqb_sym (xs ys : list Z) :
  zip_with Z.eqb xs ys = zip_with Z.eqb ys xs.
Proof.
  revert ys. induction xs as [|x xs IH]; intros [|y ys]; try done.
  cbn. by rewrite IH, Z.eqb_sym.
Qed.

(** X1: [compute_accuracy] does not depend on which of its two arguments
    holds the labels and which the predictions: swapping them gives the
    same value, or the same exception. *)
Theorem compute_accuracy_sym (labels preds : list Z) :
  compute_accuracy labels preds = compute_accuracy preds labels.
Proof.
  unfold compute_accuracy. rewrite (Nat.eqb_sym (length preds)).
  destruct (Nat.eqb_spec (length labels) (length preds)) as [Hlen|_];
    [|reflexivity].
  cbn [negb]. by rewrite zip_with_eqb_sym, Hlen.
Qed.

Lemma np_sum_bool_app (bs1 bs2 : list bool) :
  np_sum_bool (bs1 ++ bs2) = (np_sum_bool bs1 + np_sum_bool bs2)%nat.
Proof. unfold np_sum_bool. by rewrite fmap_app, sum_list_append. Qed.

(** X2: the accuracy of two batches taken together is the fraction of the
    summed counts of equal positions over the summed lengths (the batches
    are weighted by their sizes). *)
Theorem compute_accuracy_app (labels1 preds1 labels2 preds2 : list Z) :
  length labels1 = length preds1 ->
  length labels2 = length preds2 ->
  labels1 ++ labels2 <> [] ->
  compute_accuracy (labels1 ++ labels2) (preds1 ++ preds2)
  = Ok (fraction (length (equal_positions labels1 preds1)
                  + length (equal_positions labels2 preds2))
                 (length labels1 + length labels2)).
Proof.
  intros H1 H2 Hne.
  rewrite compute_accuracy_value by (rewrite ?length_app; congruence).
  rewrite <- !np_sum_bool_equal_positions by (rewrite ?length_app; congruence).
  by rewrite zip_with_app, np_sum_bool_app, length_app.
Qed.

Lemma compute_accuracy_app_witness :
  compute_accuracy ([0; 1] ++ [2; 2; 0; 1]) ([0; 0] ++ [2; 2; 0; 3])
  = Ok (fraction (1 + 3) (2 + 4)).
Proof.
  apply (compute_accuracy_app [0; 1] [0; 0] [2; 2; 0; 1] [2; 2; 0; 3]);
    [reflexivity | reflexivity | discriminate].
Defined.

(** *** When [compute_per_class_accuracy] returns, and what *)

Lemma np_incr_Ok (a : list nat) (i : Z) :
  - Z.of_nat (length a) <= i < Z.of_nat (length a) ->
  exists j, np_index (length a) i = Ok j /\ np_incr a i = Ok (alter S j a).
Proof.
  intros Hi. unfold np_incr.
  destruct (np_index (length a) i) as [j|e] eqn:Hj; [by exists j|].
  exfalso. unfold np_index in Hj.
  destruct (Z.leb_spec 0 i), (Z.ltb_spec i (Z.of_nat (length a))),
    (Z.leb_spec (- Z.of_nat (length a)) i), (Z.ltb_spec i 0);
    cbn in Hj; try discriminate; lia.
Qed.

(** With every label a valid index, the loop returns; the arrays keep
    their length and no cell of [classes] exceeds its cell of [f_v]. *)
Lemma per_class_loop_Ok (lps : list (Z * Z)) (classes f_v : list nat) :
  Forall2 le classes f_v ->
  Forall (fun lp => - Z.of_nat (length f_v) <= lp.1 < Z.of_nat (length f_v)) lps ->
  exists classes' f_v',
    per_class_loop lps classes f_v = Ok (classes', f_v')
    /\ length f_v' = length f_v
    /\ Forall2 le classes' f_v'.
Proof.
  revert classes f_v. induction lps as [|[l p] lps IH]; intros classes f_v Hle Hin.
  - exists classes, f_v. done.
  - apply Forall_cons in Hin as [Hl Hin]. cbn [fst] in Hl.
    pose proof (Forall2_length _ _ _ Hle) as Hk.
    cbn [per_class_loop].
    destruct (np_incr_Ok f_v l Hl) as (j & Hj & ->). cbn [rbind].
    assert (exists classes1,
               (if l =? p then np_incr classes l else Ok classes) = Ok classes1
               /\ Forall2 le classes1 (alter S j f_v)) as (classes1 & -> & Hle1).
    { destruct (l =? p).
      - unfold np_incr. rewrite Hk, Hj. cbn [rbind]. eexists. split; [done|].
        apply Forall2_alter; [done|]. intros; lia.
      - eexists. split; [done|]. apply Forall2_alter_r; [done|]. intros; lia. }
    cbn [rbind].
    destruct (IH classes1 (alter S j f_v) Hle1) as (c' & f' & Hloop & Hlen & Hle').
    { by rewrite length_alter. }
    exists c', f'. rewrite length_alter in Hlen. done.
Qed.

(** X3: [compute_per_class_accuracy] fails its assertion when the lengths
    differ; with equal lengths it returns an array with one entry per
    distinct label exactly when every label [l] is a valid index of that
    array, [-k <= l < k] for [k] distinct labels, and raises [IndexError]
    otherwise. *)
Theorem compute_per_class_accuracy_returns (labels preds : list Z) :
  let k := length (np_unique labels) in
  (length labels <> length preds ->
     compute_per_class_accuracy labels preds = Raise AssertionError)
  /\ (length labels = length preds ->
      Forall (fun l => - Z.of_nat k <= l < Z.of_nat k) labels ->
      exists v, compute_per_class_accuracy labels preds = Ok v /\ length v = k)
  /\ (length labels = length preds ->
      ~ Forall (fun l => - Z.of_nat k <= l < Z.of_nat k) labels ->
      compute_per_class_accuracy labels preds = Raise IndexError).
Proof.
  intros k. unfold compute_per_class_accuracy. fold k. split; [|split].
  - intros Hne. by destruct (Nat.eqb_spec (length labels) (length preds)).
  - intros Hlen Hin. rewrite Hlen, Nat.eqb_refl. cbn [negb].
    rewrite length_replicate.
    destruct (per_class_loop_Ok (zip labels preds) (replicate k 0%nat)
                (replicate k 0%nat)) as (c' & f' & -> & Hf & Hle).
    + apply Forall2_same_length_lookup. split; [done|].
      intros i x y [-> _]%lookup_replicate [-> _]%lookup_replicate. lia.
    + rewrite length_replicate. apply Forall_forall. intros [l p] Hlp.
      apply elem_of_zip_l in Hlp. cbn. by eapply Forall_forall in Hin.
    + cbn [rbind fst snd]. eexists. split; [reflexivity|].
      rewrite length_zip_with_r_eq; [by rewrite Hf, length_replicate|].
      by apply Forall2_length in Hle.
  - intros Hlen Hnot. rewrite Hlen, Nat.eqb_refl. cbn [negb].
    rewrite length_replicate.
    rewrite per_class_loop_index_error; [reflexivity|by rewrite !length_replicate|].
    rewrite length_replicate.
    apply not_Forall_Exists in Hnot; [|apply _].
    apply Exists_exists in Hnot as (l & Hl & Hbad). unfold compose in Hbad.
    apply Exists_exists.
    apply list_elem_of_lookup in Hl as [i Hi].
    destruct (lookup_lt_is_Some_2 preds i) as [p Hp].
    { rewrite <- Hlen. eapply lookup_lt_Some, Hi. }
    exists (l, p). split; [|done].
    apply list_elem_of_lookup. exists i. by apply lookup_zip_Some.
Qed.

Lemma compute_per_class_accuracy_returns_witness :
  (exists v, compute_per_class_accuracy [-1; 0; 1] [0; 0; 1] = Ok v
             /\ length v = 3%nat)
  /\ compute_per_class_accuracy [0; 5] [0; 5] = Raise IndexError
  /\ compute_per_class_accuracy [0; 5] [0] = Raise AssertionError.
Proof.
  split; [|split].
  - destruct (compute_per_class_accuracy_returns [-1; 0; 1] [0; 0; 1])
      as (_ & Hok & _).
    apply Hok; [reflexivity|]. repeat constructor; vm_compute; discriminate.
  - destruct (compute_per_class_accuracy_returns [0; 5] [0; 5]) as (_ & _ & Herr).
    apply Herr; [reflexivity|].
    intros H. apply Forall_cons in H as [_ H]. apply Forall_cons in H as [[_ H] _].
    vm_compute in H. discriminate.
  - destruct (compute_per_class_accuracy_returns [0; 5] [0]) as (Hassert & _).
    apply Hassert. cbn. lia.
Defined.

Lemma per_class_loop_le (lps : list (Z * Z)) (classes f_v classes' f_v' : list nat) :
  per_class_loop lps classes f_v = Ok (classes', f_v') ->
  Forall2 le classes f_v -> Forall2 le classes' f_v'.
Proof.
  revert classes f_v. induction lps as [|[l p] lps IH]; intros classes f_v H Hle.
  - by injection H as <- <-.
  - cbn [per_class_loop] in H. unfold np_incr at 1 in H.
    pose proof (Forall2_length _ _ _ Hle) as Hk.
    destruct (np_index (length f_v) l) as [j|] eqn:Hj; [|discriminate].
    cbn [rbind] in H. destruct (l =? p).
    + unfold np_incr in H. rewrite Hk, Hj in H. cbn [rbind] in H.
      apply IH in H; [done|]. apply Forall2_alter; [done|]. intros; lia.
    + cbn [rbind] in H. apply IH in H; [done|].
      apply Forall2_alter_r; [done|]. intros; lia.
Qed.

Lemma compute_per_class_accuracy_returns_aux (labels preds : list Z) (v : list float) :
  compute_per_class_accuracy labels preds = Ok v ->
  exists classes f_v,
    v = zip_with (fun c t => np_true_divide (float_of_nat c) (float_of_nat t))
          classes f_v
    /\ Forall2 le classes f_v.
Proof.
  unfold compute_per_class_accuracy.
  destruct (negb _); [discriminate|].
  destruct (per_class_loop _ _ _) as [[c' f']|] eqn:Hloop; [|discriminate].
  cbn [rbind fst snd]. intros [= <-]. exists c', f'. split; [done|].
  eapply per_class_loop_le; [exact Hloop|].
  rewrite length_replicate.
  apply Forall2_same_length_lookup. split; [by rewrite !length_replicate|].
  intros i x y [-> _]%lookup_replicate [-> _]%lookup_replicate. lia.
Qed.

(** X4: every entry of an array returned by [compute_per_class_accuracy]
    is either [nan] or a finite value between 0 and 1; it is never
    infinite, because no cell of [classes] exceeds its cell of [f_v]. *)
Theorem compute_per_class_accuracy_range (labels preds : list Z) (v : list float) :
  compute_per_class_accuracy labels preds = Ok v ->
  Forall (fun x => x = NaN \/ exists q, x = Fin q /\ (0 <= q <= 1)%Q) v.
Proof.
  intros Hv.
  destruct (compute_per_class_accuracy_returns_aux labels preds v Hv)
    as (c' & f' & -> & Hle).
  apply Forall_forall. intros x Hx.
  apply list_elem_of_lookup in Hx as [i Hi].
  apply lookup_zip_with_Some in Hi as (c & t & -> & Hc & Ht).
  pose proof (Forall2_lookup_lr _ _ _ _ _ _ Hle Hc Ht) as Hct.
  destruct t as [|t].
  - left. assert (c = 0%nat) as -> by lia. reflexivity.
  - right. rewrite np_true_divide_counts by lia. eexists. split; [reflexivity|].
    eapply fraction_range; [| |reflexivity]; lia.
Qed.

(* ================================================================== *)
(** * Further properties of the network *)

Ltac nat_div :=
  zify; rewrite ?Nat2Z.inj_div in *; Z.div_mod_to_equations; lia.

Lemma Conv2d_forward_5x5 (cin cout n c h w : nat) :
  Conv2d_forward {| in_channels := cin; out_channels := cout;
                    conv_kernel_size := (5, 5)%nat; conv_padding := (2, 2)%nat |}
                 [n; c; h; w]
  = if (c =? cin)%nat && (1 <=? c)%nat && (1 <=? h)%nat && (1 <=? w)%nat
    then Ok [n; cout; h; w] else Raise RuntimeError.
Proof.
  unfold Conv2d_forward, conv_out.
  cbn [in_channels out_channels conv_kernel_size conv_padding fst snd].
  destruct (Nat.eqb_spec c cin) as [_|_]; cbn [negb orb andb]; [|reflexivity].
  destruct (Nat.eqb_spec c 0), (Nat.leb_spec 1 c); try lia;
    cbn [andb]; [reflexivity|].
  destruct (Nat.leb_spec 5 (h + 2 * 2)), (Nat.leb_spec 1 h); try lia;
    cbn [rbind andb]; [|reflexivity].
  destruct (Nat.leb_spec 5 (w + 2 * 2)), (Nat.leb_spec 1 w); try lia;
    cbn [rbind]; [|reflexivity].
  do 4 f_equal; [|f_equal]; lia.
Qed.

Lemma BatchNorm2d_forward_Ok (tr : bool) (n c h w : nat) :
  (tr = true -> 2 <= n)%nat ->
  BatchNorm2d_forward {| num_features := c |} tr [n; c; h; w] = Ok [n; c; h; w].
Proof.
  intros Hn. unfold BatchNorm2d_forward. cbn [num_features].
  rewrite Nat.eqb_refl. cbn [negb].
  destruct tr; [|reflexivity]. specialize (Hn eq_refl).
  destruct (Nat.eqb_spec (n * (h * w)) 1) as [[? _]%Nat.mul_eq_1|_];
    [lia | reflexivity].
Qed.

Lemma MaxPool2d_forward_2x2 (n c h w : nat) :
  MaxPool2d_forward {| pool_kernel_size := (2, 2)%nat; pool_stride := (2, 2)%nat |}
                    [n; c; h; w]
  = if (2 <=? h)%nat && (2 <=? w)%nat
    then Ok [n; c; (h / 2)%nat; (w / 2)%nat] else Raise RuntimeError.
Proof.
  unfold MaxPool2d_forward, pool_out. cbn [pool_kernel_size pool_stride fst snd].
  cbn [Nat.eqb orb]. rewrite !orb_false_r.
  destruct (Nat.ltb_spec h 2), (Nat.leb_spec 2 h); try lia;
    cbn [rbind andb]; [reflexivity|].
  destruct (Nat.ltb_spec w 2), (Nat.leb_spec 2 w); try lia;
    cbn [rbind]; [reflexivity|].
  do 4 f_equal; [|f_equal]; nat_div.
Qed.

Lemma Linear_forward_2d (fin fout n d : nat) :
  Linear_forward {| in_features := fin; out_features := fout |} [n; d]
  = if (d =? fin)%nat then Ok [n; fout] else Raise RuntimeError.
Proof. cbn. by destruct (d =? fin)%nat. Qed.

Lemma BatchNorm1d_forward_Ok (tr : bool) (n c : nat) :
  (tr = true -> 2 <= n)%nat ->
  BatchNorm1d_forward {| num_features := c |} tr [n; c] = Ok [n; c].
Proof.
  intros Hn. unfold BatchNorm1d_forward. cbn [num_features].
  rewrite Nat.eqb_refl. cbn [negb].
  destruct tr; [|reflexivity]. specialize (Hn eq_refl).
  destruct (Nat.eqb_spec n 1); [lia | reflexivity].
Qed.

(** The batches of images that the network takes, whatever it was
    constructed for. *)
Lemma CNN_forward_images (hh ww ch cc : nat) (p : Q) (m : CNN) (tr : bool)
    (n c h w : nat) :
  CNN_init hh ww ch cc p = Ok m ->
  (tr = true -> 2 <= n)%nat ->
  CNN_forward (if tr then CNN_train m else CNN_eval m) [n; c; h; w]
  = if (c =? ch)%nat && (1 <=? c)%nat && (4 <=? h)%nat && (4 <=? w)%nat
       && ((h / 4) * (w / 4) =? 64)%nat
    then Ok [n; 10%nat] else Raise RuntimeError.
Proof.
  unfold CNN_init. destruct (Dropout_init p) as [d|]; cbn [rbind]; [|discriminate].
  intros [= <-] Hn.
  assert (CNN_forward
            (if tr
             then CNN_train
                    {| input_shape := {| height := hh; width := ww; channels := ch |};
                       class_count := cc;
                       conv1 := {| in_channels := ch; out_channels := 32;
                                   conv_kernel_size := (5, 5)%nat;
                                   conv_padding := (2, 2)%nat |};
                       batch1 := {| num_features := 32 |};
                       pool1 := {| pool_kernel_size := (2, 2)%nat;
                                   pool_stride := (2, 2)%nat |};
                       conv2 := {| in_channels := 32; out_channels := 64;
                                   conv_kernel_size := (5, 5)%nat;
                                   conv_padding := (2, 2)%nat |};
                       batch2 := {| num_features := 64 |};
                       pool2 := {| pool_kernel_size := (2, 2)%nat;
                                   pool_stride := (2, 2)%nat |};
                       fc1 := {| in_features := 4096; out_features := 1024 |};
                       batchFc := {| num_features := 1024 |};
                       fc2 := {| in_features := 1024; out_features := 10 |};
                       dropout := d; training := true |}
             else CNN_eval
                    {| input_shape := {| height := hh; width := ww; channels := ch |};
                       class_count := cc;
                       conv1 := {| in_channels := ch; out_channels := 32;
                                   conv_kernel_size := (5, 5)%nat;
                                   conv_padding := (2, 2)%nat |};
                       batch1 := {| num_features := 32 |};
                       pool1 := {| pool_kernel_size := (2, 2)%nat;
                                   pool_stride := (2, 2)%nat |};
                       conv2 := {| in_channels := 32; out_channels := 64;
                                   conv_kernel_size := (5, 5)%nat;
                                   conv_padding := (2, 2)%nat |};
                       batch2 := {| num_features := 64 |};
                       pool2 := {| pool_kernel_size := (2, 2)%nat;
                                   pool_stride := (2, 2)%nat |};
                       fc1 := {| in_features := 4096; out_features := 1024 |};
                       batchFc := {| num_features := 1024 |};
                       fc2 := {| in_features := 1024; out_features := 10 |};
                       dropout := d; training := true |})
            [n; c; h; w]
          = let? x := Conv2d_forward {| in_channels := ch; out_channels := 32;
                                        conv_kernel_size := (5, 5)%nat;
                                        conv_padding := (2, 2)%nat |} [n; c; h; w] in
            let? x := BatchNorm2d_forward {| num_features := 32 |} tr x in
            let? x := MaxPool2d_forward {| pool_kernel_size := (2, 2)%nat;
                                           pool_stride := (2, 2)%nat |} x in
            let? x := Conv2d_forward {| in_channels := 32; out_channels := 64;
                                        conv_kernel_size := (5, 5)%nat;
                                        conv_padding := (2, 2)%nat |} x in
            let? x := BatchNorm2d_forward {| num_features := 64 |} tr x in
            let? x := MaxPool2d_forward {| pool_kernel_size := (2, 2)%nat;
                                           pool_stride := (2, 2)%nat |} x in
            let? x := flatten_from_1 x in
            let? x := Linear_forward {| in_features := 4096; out_features := 1024 |} x in
            let? x := BatchNorm1d_forward {| num_features := 1024 |} tr x in
            let? x := Linear_forward {| in_features := 1024; out_features := 10 |} x in
            Ok x) as -> by (by destruct tr).
  rewrite Conv2d_forward_5x5.
  destruct (Nat.eqb_spec c ch) as [_|_]; cbn [andb rbind]; [|reflexivity].
  destruct (Nat.leb_spec 1 c) as [_|_]; cbn [andb rbind]; [|reflexivity].
  destruct (Nat.leb_spec 4 h) as [Hh|Hh]; cbn [andb]; cycle 1.
  { destruct ((1 <=? h)%nat && (1 <=? w)%nat); cbn [rbind]; [|reflexivity].
    rewrite BatchNorm2d_forward_Ok by done. cbn [rbind].
    rewrite MaxPool2d_forward_2x2.
    destruct ((2 <=? h)%nat && (2 <=? w)%nat); cbn [rbind]; [|reflexivity].
    rewrite Conv2d_forward_5x5.
    change ((32 =? 32)%nat && (1 <=? 32)%nat) with true. cbn [andb].
    destruct ((1 <=? h / 2)%nat && (1 <=? w / 2)%nat); cbn [rbind]; [|reflexivity].
    rewrite BatchNorm2d_forward_Ok by done. cbn [rbind].
    rewrite MaxPool2d_forward_2x2.
    destruct (Nat.leb_spec 2 (h / 2)); [nat_div | reflexivity]. }
  destruct (Nat.leb_spec 4 w) as [Hw|Hw]; cbn [andb]; cycle 1.
  { destruct ((1 <=? h)%nat && (1 <=? w)%nat); cbn [rbind]; [|reflexivity].
    rewrite BatchNorm2d_forward_Ok by done. cbn [rbind].
    rewrite MaxPool2d_forward_2x2.
    destruct ((2 <=? h)%nat && (2 <=? w)%nat); cbn [rbind]; [|reflexivity].
    rewrite Conv2d_forward_5x5.
    change ((32 =? 32)%nat && (1 <=? 32)%nat) with true. cbn [andb].
    destruct ((1 <=? h / 2)%nat && (1 <=? w / 2)%nat); cbn [rbind]; [|reflexivity].
    rewrite BatchNorm2d_forward_Ok by done. cbn [rbind].
    rewrite MaxPool2d_forward_2x2.
    destruct (Nat.leb_spec 2 (w / 2)); [nat_div|].
    by rewrite andb_false_r. }
  destruct (Nat.leb_spec 1 h), (Nat.leb_spec 1 w); try lia. cbn [andb rbind].
  rewrite BatchNorm2d_forward_Ok by done. cbn [rbind].
  rewrite MaxPool2d_forward_2x2.
  destruct (Nat.leb_spec 2 h), (Nat.leb_spec 2 w); try lia. cbn [andb rbind].
  rewrite Conv2d_forward_5x5.
  change ((32 =? 32)%nat && (1 <=? 32)%nat) with true. cbn [andb].
  destruct (Nat.leb_spec 1 (h / 2)), (Nat.leb_spec 1 (w / 2)); try nat_div.
  cbn [andb rbind].
  rewrite BatchNorm2d_forward_Ok by done. cbn [rbind].
  rewrite MaxPool2d_forward_2x2.
  destruct (Nat.leb_spec 2 (h / 2)), (Nat.leb_spec 2 (w / 2)); try nat_div.
  cbn [andb rbind flatten_from_1 foldr Dropout_forward].
  rewrite Linear_forward_2d.
  replace (h / 2 / 2)%nat with (h / 4)%nat by nat_div.
  replace (w / 2 / 2)%nat with (w / 4)%nat by nat_div.
  destruct (Nat.eqb_spec (64 * (h / 4 * (w / 4 * 1))) 4096),
    (Nat.eqb_spec (h / 4 * (w / 4)) 64); try nia; cbn [rbind]; [|reflexivity].
  rewrite BatchNorm1d_forward_Ok by done. reflexivity.
Qed.

(** X5: whatever [height], [width] and [class_count] the network was
    constructed with, [forward] accepts a batch of images of shape
    (n, c, h, w) exactly when [c] is the constructor's [channels] and is
    not zero, both sides are at least 4 pixels and
    (h div 4) * (w div 4) = 64, as for 32x32 images; it then returns shape
    (n, 10), and raises [RuntimeError] for every other batch of images.
    (In training mode for n >= 2.) *)
Theorem CNN_forward_accepts (hh ww ch cc : nat) (p : Q) (m : CNN) (tr : bool)
    (n c h w : nat) :
  CNN_init hh ww ch cc p = Ok m ->
  (tr = true -> 2 <= n)%nat ->
  (CNN_forward (if tr then CNN_train m else CNN_eval m) [n; c; h; w]
     = Ok [n; 10%nat]
   <-> c = ch /\ (1 <= c)%nat /\ (4 <= h)%nat /\ (4 <= w)%nat
       /\ ((h / 4) * (w / 4) = 64)%nat)
  /\ (~ (c = ch /\ (1 <= c)%nat /\ (4 <= h)%nat /\ (4 <= w)%nat
         /\ ((h / 4) * (w / 4) = 64)%nat) ->
      CNN_forward (if tr then CNN_train m else CNN_eval m) [n; c; h; w]
        = Raise RuntimeError).
Proof.
  intros Hm Hn. rewrite (CNN_forward_images hh ww ch cc p m tr n c h w Hm Hn).
  destruct (Nat.eqb_spec c ch), (Nat.leb_spec 1 c), (Nat.leb_spec 4 h),
    (Nat.leb_spec 4 w), (Nat.eqb_spec (h / 4 * (w / 4)) 64); cbn [andb];
    (split; [split; [try discriminate; intros; lia | try done; intros; lia]
            | intros Hnot; try reflexivity; exfalso; apply Hnot; lia]).
Qed.

Lemma CNN_forward_accepts_witness :
  (let? m := CNN_init 64 64 3 10 0 in CNN_forward (CNN_eval m) [1; 3; 64; 64]%nat)
    = Raise RuntimeError
  /\ (let? m := CNN_init 64 64 3 10 0 in CNN_forward (CNN_eval m) [1; 3; 35; 33]%nat)
    = Ok [1; 10]%nat
  /\ (let? m := CNN_init 32 32 0 10 0 in CNN_forward (CNN_eval m) [1; 0; 32; 32]%nat)
    = Raise RuntimeError.
Proof.
  destruct (CNN_init 32 32 0 10 0) as [m0|] eqn:Hm0;
    [|vm_compute in Hm0; discriminate].
  destruct (CNN_init 64 64 3 10 0) as [m|] eqn:Hm; [|vm_compute in Hm; discriminate].
  cbn [rbind]. split; [|split]; cycle 2.
  { destruct (CNN_forward_accepts 32 32 0 10 0 m0 false 1 0 32 32 Hm0) as [_ Herr];
      [discriminate|].
    apply Herr. intros (_ & H & _). lia. }
  - destruct (CNN_forward_accepts 64 64 3 10 0 m false 1 3 64 64 Hm) as [_ Herr];
      [discriminate|].
    apply Herr. intros (_ & _ & _ & _ & H). vm_compute in H. discriminate.
  - destruct (CNN_forward_accepts 64 64 3 10 0 m false 1 3 35 33 Hm) as [Hok _];
      [discriminate|].
    apply Hok. repeat split; try lia; reflexivity.
Defined.

Lemma CNN_init_train (hh ww ch cc : nat) (p : Q) (m : CNN) :
  CNN_init hh ww ch cc p = Ok m -> CNN_train m = m.
Proof.
  unfold CNN_init. destruct (Dropout_init p); cbn [rbind]; [|discriminate].
  by intros [= <-].
Qed.

Lemma main_train_batch_shape_eq (isHFlip : bool) (brightness : float)
    (reflectionPadding : Z) (n : nat) :
  main_train_batch_shape isHFlip brightness reflectionPadding n
  = [n; 3; 32 + 2 * Z.to_nat reflectionPadding;
     32 + 2 * Z.to_nat reflectionPadding]%nat.
Proof.
  unfold main_train_batch_shape, main_augmentations, Compose_size.
  destruct isHFlip, (float_pos brightness), (Z.ltb_spec 0 reflectionPadding);
    cbn [app foldl Transform_size cifar10_image height width channels];
    try reflexivity;
    replace (Z.to_nat reflectionPadding) with 0%nat by lia; reflexivity.
Qed.

(** X6: with the network that [main] builds and the augmentations it
    composes, a training batch of at least two images passes through
    [forward] when the reflection padding is at most 1 and makes it raise
    [RuntimeError] when it is 2 or more: the padded images no longer give
    the 4096 features that the first fully connected layer takes. *)
Theorem main_reflection_padding_forward (isHFlip : bool) (brightness : float)
    (reflectionPadding : Z) (dropout_rate : Q) (m : CNN) (n : nat) :
  CNN_init 32 32 3 10 dropout_rate = Ok m ->
  (2 <= n)%nat ->
  CNN_forward m (main_train_batch_shape isHFlip brightness reflectionPadding n)
  = if reflectionPadding <=? 1 then Ok [n; 10%nat] else Raise RuntimeError.
Proof.
  intros Hm Hn. rewrite main_train_batch_shape_eq.
  rewrite <- (CNN_init_train _ _ _ _ _ _ Hm).
  rewrite (CNN_forward_images 32 32 3 10 dropout_rate m true n 3 _ _ Hm)
    by done.
  set (s := (32 + 2 * Z.to_nat reflectionPadding)%nat).
  destruct (Nat.leb_spec 4 s); [|lia]. rewrite Nat.eqb_refl.
  change (1 <=? 3)%nat with true. cbn [andb].
  destruct (Z.leb_spec reflectionPadding 1).
  - assert (s / 4 = 8)%nat as -> by (unfold s; nat_div). reflexivity.
  - assert (9 <= s / 4)%nat by (unfold s; nat_div).
    destruct (Nat.eqb_spec (s / 4 * (s / 4)) 64); [nia | reflexivity].
Qed.

Lemma main_reflection_padding_forward_witness :
  (let? m := CNN_init 32 32 3 10 0 in
   CNN_forward m (main_train_batch_shape true (Fin 0) 2 128%nat))
    = Raise RuntimeError
  /\ (let? m := CNN_init 32 32 3 10 0 in
      CNN_forward m (main_train_batch_shape true (Fin 0) 1 128%nat))
    = Ok [128; 10]%nat.
Proof.
  destruct (CNN_init 32 32 3 10 0) as [m|] eqn:Hm; [|vm_compute in Hm; discriminate].
  cbn [rbind]. split.
  - rewrite (main_reflection_padding_forward true (Fin 0) 2 0 m 128 Hm);
      [reflexivity | lia].
  - rewrite (main_reflection_padding_forward true (Fin 0) 1 0 m 128 Hm);
      [reflexivity | lia].
Defined.

Lemma filter_Forall_id {A : Type} (P : A -> Prop) `{!forall x, Decision (P x)}
    (l : list A) :
  Forall P l -> filter P l = l.
Proof.
  induction 1 as [|x l Hx _ IH]; [reflexivity|].
  by rewrite filter_cons, decide_True, IH.
Qed.

(** X7: [count_parameters] of the network is 800 * channels + 4259114,
    whatever [class_count], [height] and [width] it was constructed with;
    for the three channels of [main] this is the 4261514 of the run
    directory's name. *)
Theorem count_parameters_CNN (hh ww ch cc : nat) (p : Q) (m : CNN) :
  CNN_init hh ww ch cc p = Ok m ->
  count_parameters (CNN_parameters m) = 800 * Z.of_nat ch + 4259114.
Proof.
  unfold CNN_init. destruct (Dropout_init p); cbn [rbind]; [|discriminate].
  intros [= <-]. unfold count_parameters.
  rewrite filter_Forall_id by (repeat constructor).
  unfold CNN_parameters, Conv2d_parameters, BatchNorm_parameters,
    Linear_parameters.
  cbn [conv1 batch1 conv2 batch2 fc1 batchFc fc2 in_channels out_channels
       conv_kernel_size num_features in_features out_features fst snd app].
  change (Z.of_nat 4096) with 4096. change (Z.of_nat 1024) with 1024.
  change (Z.of_nat 32) with 32. change (Z.of_nat 64) with 64.
  change (Z.of_nat 10) with 10. change (Z.of_nat 5) with 5.
  cbn [fmap list_fmap numel foldl]. lia.
Qed.

Lemma count_parameters_CNN_witness :
  (let? m := CNN_init 32 32 3 7 (1 # 2) in Ok (count_parameters (CNN_parameters m)))
  = Ok 4261514.
Proof.
  destruct (CNN_init 32 32 3 7 (1 # 2)) as [m|] eqn:Hm;
    [|vm_compute in Hm; discriminate].
  cbn [rbind]. rewrite (count_parameters_CNN 32 32 3 7 (1 # 2) m Hm). reflexivity.
Defined.

(* ================================================================== *)
(** * Further properties of run-directory naming *)

Section RunDirectoryResult.
Context {Number Path : Type}.
Variable str_number : Number -> string.
Variable joinpath : Path -> string -> Path.
Variable path_exists : Path -> bool.
Variable str_path : Path -> string.
Variable args : Namespace Number Path.
Variable n_parameters : Z.

Local Abbreviation cand := (candidate str_number joinpath args n_parameters).
Local Abbreviation probe_from :=
  (probe str_number joinpath path_exists args n_parameters).

Lemma probe_result (remaining i : nat) (last : Path) :
  exists d,
    (d <= remaining)%nat
    /\ (forall j, (j < d)%nat -> path_exists (cand (i + j)) = true)
    /\ ((d < remaining)%nat ->
        path_exists (cand (i + d)) = false
        /\ probe_from remaining i last = (cand (i + d), cand <$> seq i (S d)))
    /\ (d = remaining ->
        probe_from remaining i last
        = (match remaining with O => last | S r => cand (i + r) end,
           cand <$> seq i remaining)).
Proof.
  revert i last. induction remaining as [|remaining IH]; intros i last.
  - exists 0%nat. repeat split; try lia; try done.
  - destruct (path_exists (cand i)) eqn:Hi.
    + destruct (IH (S i) (cand i)) as (d & Hd & Htaken & Hfree & Hall).
      exists (S d). split; [lia|]. split; [|split].
      * intros [|j] Hj; [by rewrite Nat.add_0_r|].
        replace (i + S j)%nat with (S i + j)%nat by lia. apply Htaken. lia.
      * intros Hlt. destruct Hfree as [Hf Hp]; [lia|].
        replace (i + S d)%nat with (S i + d)%nat by lia. split; [done|].
        cbn [probe]. rewrite Hi. cbn [negb]. by rewrite Hp.
      * intros [= ->]. cbn [probe]. rewrite Hi. cbn [negb].
        rewrite Hall by done. cbn [fst snd fmap list_fmap seq]. f_equal.
        destruct remaining; [by rewrite Nat.add_0_r|]. f_equal. lia.
    + exists 0%nat. split; [lia|]. split; [intros; lia|]. split; [|lia].
      intros _. rewrite Nat.add_0_r. split; [done|].
      cbn [probe]. by rewrite Hi.
Qed.

(** X8: [get_summary_writer_log_dir] always returns the path of some
    suffix [i < 1000], after calling [exists()] on the paths of the
    suffixes [0 .. i] and on no other; the paths of all smaller suffixes
    exist, and the returned path itself exists only if [i = 999]. *)
Theorem get_summary_writer_log_dir_result :
  exists i : nat,
    (i < 1000)%nat
    /\ get_summary_writer_log_dir str_number joinpath path_exists str_path
         args n_parameters = str_path (cand i)
    /\ probed_paths str_number joinpath path_exists args n_parameters
       = cand <$> seq 0 (S i)
    /\ (forall j, (j < i)%nat -> path_exists (cand j) = true)
    /\ (path_exists (cand i) = true -> i = 999%nat).
Proof.
  unfold get_summary_writer_log_dir, probed_paths.
  destruct (probe_result 1000 0 (cand 0)) as (d & Hd & Htaken & Hfree & Hall).
  destruct (decide (d = 1000%nat)) as [->|Hne].
  - exists 999%nat. rewrite Hall by done.
    split; [lia|]. split; [reflexivity|]. split; [reflexivity|].
    split; [|done]. intros j Hj. apply (Htaken j). lia.
  - exists d. destruct Hfree as [Hf ->]; [lia|].
    split; [lia|]. split; [reflexivity|]. split; [reflexivity|].
    split; [exact Htaken|]. intros H. change (0 + d)%nat with d in Hf. congruence.
Qed.
End RunDirectoryResult.

(* ================================================================== *)
(** * Further properties of the trainer *)

Section TrainerRuns.
Context {Batch Params : Type}.
Variable batch_labels : Batch -> list Z.
Variable predict : Params -> bool -> Batch -> list Z.
Variable criterion : Params -> bool -> Batch -> float.
Variable optimise : Params -> Batch -> Params.
Variable data_load_time : Z -> float.
Variable step_time : Z -> float.

Local Abbreviation validate_ :=
  (validate Batch batch_labels Params predict criterion).
Local Abbreviation accumulate_ :=
  (validate_accumulate Batch batch_labels Params predict criterion).
Local Abbreviation train_batch_ :=
  (train_batch Batch batch_labels Params predict criterion optimise
     data_load_time step_time).
Local Abbreviation train_epoch_ :=
  (train_epoch Batch batch_labels Params predict criterion optimise
     data_load_time step_time).
Local Abbreviation train_ :=
  (train Batch batch_labels Params predict criterion optimise
     data_load_time step_time).

(** *** What a validation pass accumulates *)

Lemma validate_accumulate_from (p : Params) (flag : bool) (batches : list Batch)
    (preds labels : list Z) (loss : float) :
  foldl (fun acc b =>
           (acc.1.1 ++ predict p flag b,
            acc.1.2 ++ batch_labels b,
            float_add acc.2 (criterion p flag b)))
        (preds, labels, loss) batches
  = (preds ++ mjoin (predict p flag <$> batches),
     labels ++ mjoin (batch_labels <$> batches),
     foldl float_add loss (criterion p flag <$> batches)).
Proof.
  revert preds labels loss. induction batches as [|b batches IH];
    intros preds labels loss.
  - cbn. by rewrite !app_nil_r.
  - cbn [foldl fmap list_fmap mjoin list_join fst snd]. rewrite IH.
    by rewrite <- !app_assoc.
Qed.

(** X9: the validation pass accumulates the predictions and the labels of
    all validation batches, concatenated in the order of the loader, and
    the sum of the batch losses. *)
Theorem validate_accumulate_concat (p : Params) (flag : bool)
    (batches : list Batch) :
  accumulate_ p flag batches
  = (mjoin (predict p flag <$> batches),
     mjoin (batch_labels <$> batches),
     np_sum (criterion p flag <$> batches)).
Proof. unfold validate_accumulate. by rewrite validate_accumulate_from. Qed.

(** *** [validate], returning or raising *)

Local Abbreviation val_results st :=
  (accumulate_ (params (model st)) false
     (dl_batches (val_loader st) (dl_passes (val_loader st)))).
Local Abbreviation after_validate st :=
  {| model := {| params := params (model st); training_flag := false |};
     train_loader := train_loader st;
     val_loader := next_pass (val_loader st);
     step := step st |}.

(** X10: the failures of [validate]'s own computations come before its
    first write.  When [compute_per_class_accuracy] raises on the
    accumulated labels and predictions, [validate] raises that exception,
    and when [len(self.val_loader)] is zero the average of line 344 raises
    [ZeroDivisionError]; in both cases the model is in evaluation mode,
    the validation loader has been passed over once, and nothing has been
    handed to the summary writer or printed.  Hence a call of [validate]
    that returns had a validation loader of non-zero length and a defined
    array of per-class accuracies. *)
Theorem validate_raises_before_writing (st : Trainer Batch Params) :
  (forall e,
      compute_per_class_accuracy (val_results st).1.2 (val_results st).1.1
        = Raise e ->
      validate_ st = Throw e (after_validate st) [ModelEval])
  /\ (forall accuracy,
        compute_per_class_accuracy (val_results st).1.2 (val_results st).1.1
          = Ok accuracy ->
        dl_len (val_loader st) = 0%nat ->
        validate_ st = Throw ZeroDivisionError (after_validate st) [ModelEval])
  /\ (forall st' evs,
        validate_ st = Return tt st' evs ->
        dl_len (val_loader st) <> 0%nat
        /\ exists accuracy,
            compute_per_class_accuracy (val_results st).1.2 (val_results st).1.1
              = Ok accuracy).
Proof.
  rewrite validate_outcome. split; [|split].
  - by intros e ->.
  - by intros accuracy -> ->.
  - intros st' evs.
    destruct (compute_per_class_accuracy _ _) as [accuracy|]; [|discriminate].
    unfold py_truediv.
    destruct (Z.eqb_spec (Z.of_nat (dl_len (val_loader st))) 0);
      [discriminate|].
    intros _. split; [lia | by exists accuracy].
Qed.

(** *** The shape of an epoch *)

Lemma train_accuracy_steps_app (evs1 evs2 : list Event) :
  train_accuracy_steps (evs1 ++ evs2)
  = train_accuracy_steps evs1 ++ train_accuracy_steps evs2.
Proof. apply omap_app. Qed.

(** An epoch that returns: its batches were processed in training mode on
    the next pass of the training loader, the epoch was recorded, and then
    either a validation was made and training mode restored, or nothing
    more was done. *)
Lemma train_epoch_structure (V pf lf epoch : Z)
    (st st' : Trainer Batch Params) (evs : list Event) :
  train_epoch_ V pf lf epoch st = Return tt st' evs ->
  exists st_b evs_b evs_end,
    for_each (dl_batches (train_loader st) (dl_passes (train_loader st)))
             (train_batch_ epoch pf lf)
             {| model := {| params := params (model st); training_flag := true |};
                train_loader := next_pass (train_loader st);
                val_loader := val_loader st; step := step st |}
      = Return tt st_b evs_b
    /\ evs = ModelTrain :: evs_b ++ evs_end
    /\ V <> 0
    /\ (((epoch + 1) mod V = 0
         /\ st' = {| model := {| params := params (model st_b);
                                 training_flag := true |};
                     train_loader := train_loader st_b;
                     val_loader := next_pass (val_loader st_b);
                     step := step st_b |}
         /\ exists evs_v,
              validate_ st_b = Return tt (after_validate st_b) evs_v
              /\ evs_end = AddScalar "epoch" (float_of_Z epoch) (step st_b)
                             :: CallValidate epoch :: evs_v ++ [ModelTrain])
        \/ ((epoch + 1) mod V <> 0
            /\ st' = st_b
            /\ evs_end = [AddScalar "epoch" (float_of_Z epoch) (step st_b)])).
Proof.
  unfold train_epoch. intros H.
  apply bind_Return in H as ([] & st1 & evs1 & evs2 & H1 & H & ->).
  injection H1 as <- <-.
  apply bind_Return in H as (batches & st2 & evs1 & evs3 & H2 & H & ->).
  injection H2 as <- <- <-.
  apply bind_Return in H as ([] & st3 & evs_b & evs4 & Hb & H & ->).
  apply bind_Return in H as (st3' & ? & ? & evs5 & [= <- <- <-] & H & ->).
  apply bind_Return in H as ([] & ? & ? & evs6 & [= <- <-] & H & ->).
  apply bind_Return in H as (r & ? & ? & evs7 & Hr & H & ->).
  apply lift_Return in Hr as (Hr & -> & ->).
  apply py_mod_Ok in Hr as [HV ->].
  exists st3, evs_b. unfold when in H.
  destruct (Z.eqb_spec ((epoch + 1) mod V) 0) as [Hz|Hz].
  - apply bind_Return in H as ([] & ? & ? & evs8 & [= <- <-] & H & ->).
    apply bind_Return in H as ([] & st4 & evs_v & evs9 & Hval & H & ->).
    injection H as <- <-.
    apply validate_Return in Hval as Hst4. destruct Hst4 as [-> _].
    eexists. split; [exact Hb|]. split; [reflexivity|]. split; [done|].
    left. split; [done|]. split; [reflexivity|]. exists evs_v. done.
  - injection H as <- <-.
    eexists. split; [exact Hb|]. split; [reflexivity|]. split; [done|].
    right. done.
Qed.

(** *** The logging cadence *)

Lemma py_range_cons (a b : Z) : a < b -> py_range a b = a :: py_range (a + 1) b.
Proof.
  intros Hab. unfold py_range.
  replace (Z.to_nat (b - a)) with (S (Z.to_nat (b - (a + 1)))) by lia.
  cbn [seq fmap list_fmap]. rewrite <- fmap_S_seq, <- list_fmap_compose.
  f_equal; [lia|]. apply list_fmap_ext. intros _ i _. cbn. lia.
Qed.

Lemma py_range_nil (a b : Z) : b <= a -> py_range a b = [].
Proof. intros Hab. unfold py_range. by replace (Z.to_nat (b - a)) with 0%nat by lia. Qed.

Lemma py_range_app (a b c : Z) :
  a <= b -> b <= c -> py_range a b ++ py_range b c = py_range a c.
Proof.
  intros Hab Hbc. unfold py_range.
  replace (Z.to_nat (c - a)) with (Z.to_nat (b - a) + Z.to_nat (c - b))%nat by lia.
  rewrite seq_app, fmap_app. f_equal. cbn [Nat.add].
  replace (seq (Z.to_nat (b - a)) (Z.to_nat (c - b)))
    with (Nat.add (Z.to_nat (b - a)) <$> seq 0 (Z.to_nat (c - b)))
    by (rewrite fmap_add_seq; f_equal; lia).
  rewrite <- list_fmap_compose.
  apply list_fmap_ext. intros _ i _. cbn. lia.
Qed.

Lemma train_batch_logged (epoch pf lf : Z) (b : Batch)
    (st st' : Trainer Batch Params) (evs : list Event) :
  train_batch_ epoch pf lf b st = Return tt st' evs ->
  train_accuracy_steps evs
  = if decide ((step st + 1) mod lf = 0) then [step st] else [].
Proof.
  unfold train_batch, optimise_on, log_metrics, print_metrics, incr_step,
    when, bind, get, put, emit, ret, lift.
  cbn -[compute_accuracy py_mod].
  destruct (compute_accuracy _ _); cbn -[py_mod]; [|discriminate].
  destruct (py_mod (step st + 1) lf) as [r_log|] eqn:Hlog; cbn -[py_mod];
    [|discriminate].
  apply py_mod_Ok in Hlog as [_ ->].
  destruct (Z.eqb_spec ((step st + 1) mod lf) 0); cbn -[py_mod];
    (destruct (py_mod (step st + 1) pf) as [r_print|]; cbn -[py_mod];
     [|discriminate]);
    (destruct (r_print =? 0); cbn -[py_mod];
     try (destruct (py_mod (step st) _); cbn -[py_mod]; [|discriminate]));
    intros [= <- <-]; by rewrite ?decide_True, ?decide_False by done.
Qed.

Lemma train_batches_logged (epoch pf lf : Z) (batches : list Batch)
    (st st' : Trainer Batch Params) (evs : list Event) :
  for_each batches (train_batch_ epoch pf lf) st = Return tt st' evs ->
  train_accuracy_steps evs
  = filter (fun s => (s + 1) mod lf = 0) (py_range (step st) (step st')).
Proof.
  revert st evs. induction batches as [|b batches IH]; intros st evs H.
  - injection H as <- <-. by rewrite py_range_nil.
  - cbn [for_each] in H.
    apply bind_Return in H as ([] & st1 & evs1 & evs2 & Hb & Hrest & ->).
    apply train_batch_logged in Hb as Hlog.
    apply train_batch_Return in Hb as (Hs & _).
    apply train_batches_Return in Hrest as Hs'. destruct Hs' as (Hs' & _).
    apply IH in Hrest.
    rewrite train_accuracy_steps_app, Hlog, Hrest.
    rewrite (py_range_cons (step st)), filter_cons by lia.
    rewrite Hs. by destruct (decide ((step st + 1) mod lf = 0)).
Qed.

Lemma train_epoch_logged (V pf lf epoch : Z)
    (st st' : Trainer Batch Params) (evs : list Event) :
  train_epoch_ V pf lf epoch st = Return tt st' evs ->
  step st <= step st'
  /\ train_accuracy_steps evs
     = filter (fun s => (s + 1) mod lf = 0) (py_range (step st) (step st')).
Proof.
  intros H. apply train_epoch_structure in H
    as (st_b & evs_b & evs_end & Hb & -> & _ & Hend).
  apply train_batches_logged in Hb as Hlog.
  apply train_batches_Return in Hb as (Hs & _). cbn [step] in Hs, Hlog.
  assert (step st' = step st_b /\ train_accuracy_steps evs_end = [])
    as [Hst Hnone].
  { destruct Hend as [(_ & -> & evs_v & Hval & ->)|(_ & -> & ->)]; [|done].
    split; [done|].
    apply validate_Return in Hval as (_ & accuracy & average_loss & _ & ->).
    reflexivity. }
  rewrite Hst. split; [lia|].
  change (ModelTrain :: evs_b ++ evs_end) with ([ModelTrain] ++ evs_b ++ evs_end).
  rewrite !train_accuracy_steps_app, Hlog, Hnone, app_nil_r. reflexivity.
Qed.

Lemma train_epochs_logged (V pf lf : Z) (es : list Z)
    (st st' : Trainer Batch Params) (evs : list Event) :
  for_each es (train_epoch_ V pf lf) st = Return tt st' evs ->
  step st <= step st'
  /\ train_accuracy_steps evs
     = filter (fun s => (s + 1) mod lf = 0) (py_range (step st) (step st')).
Proof.
  revert st evs. induction es as [|e es IH]; intros st evs H.
  - injection H as <- <-. split; [lia|]. by rewrite py_range_nil.
  - cbn [for_each] in H.
    apply bind_Return in H as ([] & st1 & evs1 & evs2 & He & Hrest & ->).
    apply train_epoch_logged in He as [Hle1 Hlog1].
    apply IH in Hrest as [Hle2 Hlog2]. split; [lia|].
    rewrite train_accuracy_steps_app, Hlog1, Hlog2, <- filter_app.
    by rewrite py_range_app.
Qed.

(** X11: in a run of [train] that reaches its end, a training accuracy is
    handed to the summary writer for exactly those processed batches whose
    step counter [s], read before its increment, satisfies
    [(s + 1) % log_frequency == 0], in order and each filed under that
    [s]: with frequency [f > 0] these are the steps f-1, 2f-1, ... *)
Theorem train_logs_every_log_frequency (E V pf lf start : Z)
    (st st' : Trainer Batch Params) (evs : list Event) :
  train_ E V pf lf start st = Return tt st' evs ->
  train_accuracy_steps evs
  = filter (fun s => (s + 1) mod lf = 0) (py_range (step st) (step st')).
Proof.
  intros H. unfold train in H.
  apply bind_Return in H as ([] & st1 & evs1 & evs2 & H1 & H & ->).
  injection H1 as <- <-.
  apply train_epochs_logged in H as [_ Hlog]. exact Hlog.
Qed.
End TrainerRuns.

Lemma validate_raises_before_writing_witness :
  demo_validate
    (Trainer_init {| params := tt; training_flag := true |} demo_train_loader
       {| dl_len := 1; dl_batches := fun _ => [([5], [5])]; dl_passes := 0 |})
  = Throw IndexError
      {| model := {| params := tt; training_flag := false |};
         train_loader := demo_train_loader;
         val_loader := {| dl_len := 1; dl_batches := fun _ => [([5], [5])];
                          dl_passes := 1 |};
         step := 0 |}
      [ModelEval]
  /\ demo_validate
       (Trainer_init {| params := tt; training_flag := true |} demo_train_loader
          {| dl_len := 0; dl_batches := fun _ => []; dl_passes := 0 |})
     = Throw ZeroDivisionError
         {| model := {| params := tt; training_flag := false |};
            train_loader := demo_train_loader;
            val_loader := {| dl_len := 0; dl_batches := fun _ => [];
                             dl_passes := 1 |};
            step := 0 |}
         [ModelEval].
Proof.
  split.
  - destruct (validate_raises_before_writing fst (fun _ _ b => b.2)
                (fun _ _ _ => Fin 0)
                (Trainer_init {| params := tt; training_flag := true |}
                   demo_train_loader
                   {| dl_len := 1; dl_batches := fun _ : nat => [([5], [5])];
                      dl_passes := 0 |}))
      as (Hraise & _ & _).
    apply Hraise. reflexivity.
  - destruct (validate_raises_before_writing fst (fun _ _ b => b.2)
                (fun _ _ _ => Fin 0)
                (Trainer_init {| params := tt; training_flag := true |}
                   demo_train_loader
                   {| dl_len := 0; dl_batches := fun _ : nat => [];
                      dl_passes := 0 |}))
      as (_ & Hzero & _).
    apply (Hzero []); reflexivity.
Defined.

Lemma train_logs_every_log_frequency_witness :
  train_accuracy_steps (outcome_events (demo_train 3 2 10 4 0 demo_trainer))
  = filter (fun s => (s + 1) mod 4 = 0) (py_range 0 6).
Proof.
  apply (train_logs_every_log_frequency fst (fun _ _ b => b.2) (fun _ _ _ => Fin 0)
           (fun p _ => p) (fun _ => Fin 0) (fun _ => Fin 0)
           3 2 10 4 0 demo_trainer
           (outcome_state (demo_train 3 2 10 4 0 demo_trainer))).
  vm_compute. reflexivity.
Defined.

Section TrainerRunsMore.
Context {Batch Params : Type}.
Variable batch_labels : Batch -> list Z.
Variable predict : Params -> bool -> Batch -> list Z.
Variable criterion : Params -> bool -> Batch -> float.
Variable optimise : Params -> Batch -> Params.
Variable data_load_time : Z -> float.
Variable step_time : Z -> float.

Local Abbreviation validate_ :=
  (validate Batch batch_labels Params predict criterion).
Local Abbreviation train_batch_ :=
  (train_batch Batch batch_labels Params predict criterion optimise
     data_load_time step_time).
Local Abbreviation train_epoch_ :=
  (train_epoch Batch batch_labels Params predict criterion optimise
     data_load_time step_time).
Local Abbreviation train_ :=
  (train Batch batch_labels Params predict criterion optimise
     data_load_time step_time).

(** *** Passes over the loaders *)

Lemma iter_next_pass (l : DataLoader Batch) (n : nat) :
  Nat.iter n next_pass l
  = {| dl_len := dl_len l; dl_batches := dl_batches l;
       dl_passes := dl_passes l + n |}.
Proof.
  induction n as [|n IH].
  - destruct l. cbn. f_equal. lia.
  - rewrite Nat.iter_succ, IH. unfold next_pass. cbn. f_equal. lia.
Qed.

Lemma train_epoch_loaders (V pf lf epoch : Z)
    (st st' : Trainer Batch Params) (evs : list Event) :
  train_epoch_ V pf lf epoch st = Return tt st' evs ->
  train_loader st' = next_pass (train_loader st)
  /\ val_loader st'
     = Nat.iter (length (filter (fun e => (e + 1) mod V = 0) [epoch]))
         next_pass (val_loader st).
Proof.
  intros H.
  apply (train_epoch_structure batch_labels predict criterion optimise
           data_load_time step_time) in H
    as (st_b & evs_b & evs_end & Hb & _ & _ & Hend).
  apply train_batches_Return in Hb as (_ & _ & Ht & Hv & _). cbn in Ht, Hv.
  rewrite filter_cons, filter_nil.
  destruct Hend as [(Hz & -> & _)|(Hz & -> & _)].
  - rewrite decide_True by done. cbn. by rewrite Ht, Hv.
  - rewrite decide_False by done. done.
Qed.

Lemma train_epochs_loaders (V pf lf : Z) (es : list Z)
    (st st' : Trainer Batch Params) (evs : list Event) :
  for_each es (train_epoch_ V pf lf) st = Return tt st' evs ->
  train_loader st' = Nat.iter (length es) next_pass (train_loader st)
  /\ val_loader st'
     = Nat.iter (length (filter (fun e => (e + 1) mod V = 0) es))
         next_pass (val_loader st).
Proof.
  revert st evs. induction es as [|e es IH]; intros st evs H.
  - by injection H as <- <-.
  - cbn [for_each] in H.
    apply bind_Return in H as ([] & st1 & evs1 & evs2 & He & Hrest & ->).
    apply train_epoch_loaders in He as [Ht1 Hv1].
    apply IH in Hrest as [Ht2 Hv2].
    rewrite Ht2, Hv2, Ht1, Hv1.
    change (e :: es) with ([e] ++ es). rewrite filter_app, !length_app.
    rewrite !iter_next_pass. cbn [dl_len dl_batches dl_passes next_pass length].
    split; f_equal; lia.
Qed.

(** X12: a run of [train(E, V, ...)] from epoch 0 that reaches its end,
    with [E >= 0] and [V >= 1], has made exactly [E] passes over the
    training loader and [E / V] passes over the validation loader, and has
    changed nothing else about the loaders. *)
Theorem train_loader_passes (E V pf lf : Z)
    (st st' : Trainer Batch Params) (evs : list Event) :
  0 <= E -> 1 <= V ->
  train_ E V pf lf 0 st = Return tt st' evs ->
  train_loader st'
  = {| dl_len := dl_len (train_loader st);
       dl_batches := dl_batches (train_loader st);
       dl_passes := dl_passes (train_loader st) + Z.to_nat E |}
  /\ val_loader st'
     = {| dl_len := dl_len (val_loader st);
          dl_batches := dl_batches (val_loader st);
          dl_passes := dl_passes (val_loader st) + Z.to_nat (E / V) |}.
Proof.
  intros HE HV H. unfold train in H.
  apply bind_Return in H as ([] & st1 & evs1 & evs2 & H1 & H & ->).
  injection H1 as <- <-.
  assert (length (filter (fun e => (e + 1) mod V = 0) (py_range 0 E))
          = Z.to_nat (E / V)) as Hcount.
  { rewrite <- (Z2Nat.id E) at 1 by lia.
    rewrite validation_schedule by done.
    rewrite length_fmap, length_py_range, Z2Nat.id by lia. f_equal. lia. }
  apply train_epochs_loaders in H as [-> ->]. cbn [train_loader val_loader].
  rewrite Hcount, !iter_next_pass, length_py_range.
  split; do 2 f_equal; lia.
Qed.

(** *** The step counter, also in runs that raise *)

Lemma step_nondecreasing_bind {A B : Type} (m : M Batch Params A)
    (k : A -> M Batch Params B) :
  step_nondecreasing m -> (forall a, step_nondecreasing (k a)) ->
  step_nondecreasing (bind m k).
Proof.
  intros Hm Hk st. specialize (Hm st). unfold bind.
  destruct (m st) as [a st1 evs1|e st1 evs1]; cbn [outcome_state] in *; [|done].
  specialize (Hk a st1).
  destruct (k a st1); cbn [outcome_state] in *; lia.
Qed.

Lemma step_nondecreasing_lift {A : Type} (r : result A) :
  step_nondecreasing (lift (Batch := Batch) (Params := Params) r).
Proof. intros st. unfold lift. by destruct r. Qed.

Lemma step_nondecreasing_for_each {X : Type} (xs : list X)
    (body : X -> M Batch Params unit) :
  (forall x, step_nondecreasing (body x)) ->
  step_nondecreasing (for_each xs body).
Proof.
  intros Hbody. induction xs as [|x xs IH]; [by intros st|].
  cbn [for_each]. by apply step_nondecreasing_bind.
Qed.

Lemma step_nondecreasing_when (b : bool) (m : M Batch Params unit) :
  step_nondecreasing m -> step_nondecreasing (when b m).
Proof. intros Hm. destruct b; [done | by intros st]. Qed.

Lemma step_nondecreasing_emit (ev : Event) :
  step_nondecreasing (emit (Batch := Batch) (Params := Params) ev).
Proof. by intros st. Qed.

Lemma step_nondecreasing_model_set_training (flag : bool) :
  step_nondecreasing (model_set_training (Batch := Batch) (Params := Params) flag).
Proof. by intros st. Qed.

Lemma step_nondecreasing_validate : step_nondecreasing validate_.
Proof.
  intros st. rewrite validate_outcome.
  destruct (compute_per_class_accuracy _ _); [|done].
  by destruct (py_truediv _ _).
Qed.

Lemma step_nondecreasing_train_batch (epoch pf lf : Z) (b : Batch) :
  step_nondecreasing (train_batch_ epoch pf lf b).
Proof.
  unfold train_batch.
  apply step_nondecreasing_bind; [by intros st|]. intros r.
  apply step_nondecreasing_bind; [apply step_nondecreasing_lift|]. intros accuracy.
  apply step_nondecreasing_bind; [by intros st|]. intros st0.
  apply step_nondecreasing_bind; [apply step_nondecreasing_lift|]. intros r_log.
  apply step_nondecreasing_bind.
  { apply step_nondecreasing_when. by intros st. }
  intros _.
  apply step_nondecreasing_bind; [apply step_nondecreasing_lift|]. intros r_print.
  apply step_nondecreasing_bind.
  { apply step_nondecreasing_when. unfold print_metrics.
    apply step_nondecreasing_bind; [by intros st|]. intros st1.
    apply step_nondecreasing_bind; [apply step_nondecreasing_lift|]. intros ?.
    apply step_nondecreasing_emit. }
  intros _ st. cbn. lia.
Qed.

Lemma step_nondecreasing_train_epoch (V pf lf epoch : Z) :
  step_nondecreasing (train_epoch_ V pf lf epoch).
Proof.
  unfold train_epoch.
  apply step_nondecreasing_bind; [apply step_nondecreasing_model_set_training|].
  intros _.
  apply step_nondecreasing_bind; [by intros st|]. intros batches.
  apply step_nondecreasing_bind.
  { apply step_nondecreasing_for_each. intros b.
    apply step_nondecreasing_train_batch. }
  intros _.
  apply step_nondecreasing_bind; [by intros st|]. intros st0.
  apply step_nondecreasing_bind; [apply step_nondecreasing_emit|]. intros _.
  apply step_nondecreasing_bind; [apply step_nondecreasing_lift|]. intros r.
  apply step_nondecreasing_when.
  apply step_nondecreasing_bind; [apply step_nondecreasing_emit|]. intros _.
  apply step_nondecreasing_bind; [apply step_nondecreasing_validate|]. intros _.
  apply step_nondecreasing_model_set_training.
Qed.

(** X13: whatever its arguments and whether it returns or raises, [train]
    never leaves the step counter below the value it started from: no
    path of the training loop resets or decrements it. *)
Theorem train_step_nondecreasing (E V pf lf start : Z) (st : Trainer Batch Params) :
  step st <= step (outcome_state (train_ E V pf lf start st)).
Proof.
  revert st. change (step_nondecreasing (train_ E V pf lf start)).
  unfold train.
  apply step_nondecreasing_bind; [apply step_nondecreasing_model_set_training|].
  intros _. apply step_nondecreasing_for_each. intros epoch.
  apply step_nondecreasing_train_epoch.
Qed.

(** *** Frequencies of zero *)

(** X14: with a logging or printing frequency of 0, a training step on a
    well-formed batch raises [ZeroDivisionError] after the optimizer has
    already updated the parameters and before the step counter is
    incremented; with a logging frequency of 0 nothing has been logged or
    printed by then. *)
Theorem train_batch_zero_frequency (epoch pf lf : Z) (b : Batch)
    (st : Trainer Batch Params) :
  batch_labels b <> [] ->
  length (predict (params (model st)) (training_flag (model st)) b)
    = length (batch_labels b) ->
  (lf = 0 ->
     train_batch_ epoch pf lf b st
     = Throw ZeroDivisionError
         {| model := {| params := optimise (params (model st)) b;
                        training_flag := training_flag (model st) |};
            train_loader := train_loader st; val_loader := val_loader st;
            step := step st |} [])
  /\ (pf = 0 ->
      exists evs,
        train_batch_ epoch pf lf b st
        = Throw ZeroDivisionError
            {| model := {| params := optimise (params (model st)) b;
                           training_flag := training_flag (model st) |};
               train_loader := train_loader st; val_loader := val_loader st;
               step := step st |} evs).
Proof.
  intros Hne Hlen.
  unfold train_batch, optimise_on, log_metrics, print_metrics, incr_step,
    when, bind, get, put, emit, ret, lift.
  cbn -[compute_accuracy py_mod].
  rewrite compute_accuracy_value by done. cbn -[py_mod]. split.
  - intros ->. reflexivity.
  - intros ->. unfold py_mod at 1. destruct (Z.eqb_spec lf 0); [eauto|].
    destruct (_ =? 0); cbn; eauto.
Qed.
End TrainerRunsMore.

Lemma train_loader_passes_witness :
  dl_passes (train_loader (outcome_state (demo_train 5 2 10 10 0 demo_trainer)))
    = 5%nat
  /\ dl_passes (val_loader (outcome_state (demo_train 5 2 10 10 0 demo_trainer)))
    = 2%nat.
Proof.
  destruct (train_loader_passes fst (fun _ _ b => b.2) (fun _ _ _ => Fin 0)
              (fun p _ => p) (fun _ => Fin 0) (fun _ => Fin 0)
              5 2 10 10 demo_trainer
              (outcome_state (demo_train 5 2 10 10 0 demo_trainer))
              (outcome_events (demo_train 5 2 10 10 0 demo_trainer)))
    as [-> ->]; [lia | lia | vm_compute; reflexivity |].
  split; reflexivity.
Defined.

Lemma train_batch_zero_frequency_witness :
  demo_train_batch 0 10 0 ([0; 1], [0; 1]) demo_trainer
  = Throw ZeroDivisionError demo_trainer [].
Proof.
  destruct (train_batch_zero_frequency fst (fun _ _ b => b.2) (fun _ _ _ => Fin 0)
              (fun p _ => p) (fun _ => Fin 0) (fun _ => Fin 0)
              0 10 0 ([0; 1], [0; 1]) demo_trainer) as [Hlog _];
    [discriminate | reflexivity |].
  exact (Hlog eq_refl).
Defined.

Section TrainerEdges.
Context {Batch Params : Type}.
Variable batch_labels : Batch -> list Z.
Variable predict : Params -> bool -> Batch -> list Z.
Variable criterion : Params -> bool -> Batch -> float.
Variable optimise : Params -> Batch -> Params.
Variable data_load_time : Z -> float.
Variable step_time : Z -> float.

Local Abbreviation train_batch_ :=
  (train_batch Batch batch_labels Params predict criterion optimise
     data_load_time step_time).
Local Abbreviation train_epoch_ :=
  (train_epoch Batch batch_labels Params predict criterion optimise
     data_load_time step_time).
Local Abbreviation train_ :=
  (train Batch batch_labels Params predict criterion optimise
     data_load_time step_time).

(** X15: with a validation frequency of 0, an epoch whose batches are all
    processed ends in [ZeroDivisionError]: the batches have been trained
    on and the epoch has been recorded, but no validation is made, and the
    exception ends [train] in its first epoch. *)
Theorem train_zero_val_frequency (E pf lf start : Z)
    (st st_b : Trainer Batch Params) (evs_b : list Event) :
  start < E ->
  for_each (dl_batches (train_loader st) (dl_passes (train_loader st)))
           (train_batch_ start pf lf)
           {| model := {| params := params (model st); training_flag := true |};
              train_loader := next_pass (train_loader st);
              val_loader := val_loader st; step := step st |}
    = Return tt st_b evs_b ->
  train_ E 0 pf lf start st
  = Throw ZeroDivisionError st_b
      (ModelTrain :: ModelTrain
         :: evs_b ++ [AddScalar "epoch" (float_of_Z start) (step st_b)]).
Proof.
  intros Hlt Hb. unfold train. rewrite py_range_cons by done.
  cbn [for_each]. unfold train_epoch, bind at 1 2 3 4.
  unfold model_train, model_set_training, iter_train_loader, bind, get, put,
    emit, ret. cbn -[for_each py_mod].
  rewrite Hb. reflexivity.
Qed.

(** X16: when [epochs] does not exceed [start_epoch], [train] only
    switches the model to training mode: no batch is processed, no pass
    is made over either loader and the step counter stays as it is. *)
Theorem train_no_epochs (E V pf lf start : Z) (st : Trainer Batch Params) :
  E <= start ->
  train_ E V pf lf start st
  = Return tt
      {| model := {| params := params (model st); training_flag := true |};
         train_loader := train_loader st; val_loader := val_loader st;
         step := step st |}
      [ModelTrain].
Proof.
  intros Hle. unfold train. by rewrite py_range_nil.
Qed.
End TrainerEdges.

Lemma train_zero_val_frequency_witness :
  exists st_b evs,
    demo_train 3 0 10 10 0 demo_trainer = Throw ZeroDivisionError st_b evs
    /\ step st_b = 2
    /\ validate_calls evs = [].
Proof.
  eexists _, _. split; [|split].
  - apply (train_zero_val_frequency fst (fun _ _ b => b.2) (fun _ _ _ => Fin 0)
             (fun p _ => p) (fun _ => Fin 0) (fun _ => Fin 0)
             3 10 10 0 demo_trainer); [lia | vm_compute; reflexivity].
  - reflexivity.
  - reflexivity.
Defined.

Lemma train_no_epochs_witness :
  demo_train (-1) 2 10 10 0 demo_trainer = Return tt demo_trainer [ModelTrain].
Proof.
  apply (train_no_epochs fst (fun _ _ b => b.2) (fun _ _ _ => Fin 0)
           (fun p _ => p) (fun _ => Fin 0) (fun _ => Fin 0)
           (-1) 2 10 10 0 demo_trainer). lia.
Defined.

(** X17: [forward] takes batches only: for a tensor that does not have
    exactly four dimensions, an unbatched image among them, it raises. *)
Theorem CNN_forward_needs_4d (hh ww ch cc : nat) (p : Q) (m : CNN) (x : Shape) :
  CNN_init hh ww ch cc p = Ok m ->
  length x <> 4%nat ->
  exists e, CNN_forward m x = Raise e.
Proof.
  unfold CNN_init. destruct (Dropout_init p) as [d|]; cbn [rbind]; [|discriminate].
  intros [= <-] Hlen. unfold CNN_forward. cbn [conv1 batch1 training].
  destruct x as [|c [|h [|w [|n [|? ?]]]]]; try (cbn in Hlen; lia);
    try (eexists; reflexivity).
  unfold Conv2d_forward. cbn [in_channels out_channels conv_kernel_size
                              conv_padding fst snd].
  destruct (negb _ || _); [eexists; reflexivity|].
  destruct (conv_out h 2 5); cbn [rbind]; [|eexists; reflexivity].
  destruct (conv_out w 2 5); cbn [rbind]; eexists; reflexivity.
Qed.

Lemma CNN_forward_needs_4d_witness :
  exists e, (let? m := CNN_init 32 32 3 10 0 in CNN_forward m [3; 32; 32]%nat)
            = Raise e.
Proof.
  destruct (CNN_init 32 32 3 10 0) as [m|] eqn:Hm; [|vm_compute in Hm; discriminate].
  cbn [rbind].
  apply (CNN_forward_needs_4d 32 32 3 10 0 m [3; 32; 32]%nat Hm). cbn. lia.
Defined.

Lemma compute_per_class_accuracy_range_witness :
  Forall (fun x => x = NaN \/ exists q, x = Fin q /\ (0 <= q <= 1)%Q)
         [Fin 1; NaN].
Proof.
  apply (compute_per_class_accuracy_range [-2; 0] [-2; 0] [Fin 1; NaN]).
  reflexivity.
Defined.
